(** * Etheremon: the encounter system and the client action layer

    A shallow embedding of

    - the contract [EncounterSystem] ([throwBall], [flee], [attack]), as
      functions in a state-and-failure monad over the contract's tables;
    - the client's [setup] function ([bindFastTxExecute], [wrapPosition],
      [isObstructed], [moveTo], [moveBy], [spawn], [throwBall], [attack],
      [fleeEncounter]), as functions in a monad that threads the client
      state and records the effects of a call.

    Unsigned machine integers are [Z] with their range checks written out,
    tables and components are [gmap]s keyed by entity, overrides are an
    association list (newest first). *)

From Stdlib Require Import ZArith Lia.
From stdpp Require Import base option list strings gmap.

Local Open Scope Z_scope.

(** ** The contract *)

Module EncounterSystem.

(** [bytes32] entity keys and [address]es are unsigned integers. *)
Abbreviation bytes32 := Z.
Abbreviation address := Z.

Definition uint256_max : Z := 2 ^ 256 - 1.

(** Solidity panic codes (compiler-inserted checks, solidity >= 0.8.0). *)
Definition PANIC_ARITHMETIC : Z := 0x11.
Definition PANIC_INDEX : Z := 0x32.

(** Modelled from the spec: the tables [Encounter], [OwnedBy], [Monster],
    [Health] and [Strength] are imported from [../tables/*.sol], which are
    not part of the sources.  Following section 3 of the specification, an
    encounter record is [{actionCount, monsterList}] keyed by the player and
    its absence is the not-in-encounter state; a monster has a record, a
    health, a strength and an owner, each keyed by the monster.  A table is a
    finite map from keys to values; reading an absent key yields the zero
    value of the schema ([get] below), [set] writes the record,
    [deleteRecord] removes it.  The contract's own storage variable
    [entropyNonce] is neither read nor written by its functions and is left
    out. *)
Record Store := mkStore {
  Encounter : gmap Z (Z * list Z);
  OwnedBy : gmap Z Z;
  Monster : gmap Z Z;
  Health : gmap Z Z;
  Strength : gmap Z Z
}.

Definition with_Encounter (f : gmap Z (Z * list Z) -> gmap Z (Z * list Z))
    (s : Store) : Store :=
  mkStore (f (Encounter s)) (OwnedBy s) (Monster s) (Health s) (Strength s).
Definition with_OwnedBy (f : gmap Z Z -> gmap Z Z) (s : Store) : Store :=
  mkStore (Encounter s) (f (OwnedBy s)) (Monster s) (Health s) (Strength s).
Definition with_Monster (f : gmap Z Z -> gmap Z Z) (s : Store) : Store :=
  mkStore (Encounter s) (OwnedBy s) (f (Monster s)) (Health s) (Strength s).
Definition with_Health (f : gmap Z Z -> gmap Z Z) (s : Store) : Store :=
  mkStore (Encounter s) (OwnedBy s) (Monster s) (f (Health s)) (Strength s).

(** How a call can abort: [require] failing with its message, or a
    compiler-inserted check failing with a panic code. *)
Inductive Failure :=
| Revert (reason : string)
| Panic (code : Z).

Inductive Result (A : Type) :=
| Ok (a : A) (s : Store)
| Fail (e : Failure).
Arguments Ok {A} a s.
Arguments Fail {A} e.

(** Contract code runs in a state-and-failure monad over the store. *)
Definition Sys (A : Type) : Type := Store -> Result A.

Definition ret {A} (a : A) : Sys A := fun s => Ok a s.
Definition bind {A B} (m : Sys A) (k : A -> Sys B) : Sys B :=
  fun s => match m s with
           | Ok a s' => k a s'
           | Fail e => Fail e
           end.
Definition fail {A} (e : Failure) : Sys A := fun _ => Fail e.
Definition modify (f : Store -> Store) : Sys unit := fun s => Ok tt (f s).
Definition gets {A} (f : Store -> A) : Sys A := fun s => Ok (f s) s.

Notation "'let*' x ':=' m 'in' k" := (bind m (fun x => k))
  (at level 10, x pattern, m at level 100, k at level 200).
Notation "m ';;' k" := (bind m (fun _ => k))
  (at level 100, k at level 200, right associativity).

Definition require (cond : bool) (reason : string) : Sys unit :=
  if cond then ret tt else fail (Revert reason).

(** [a[i]] on a memory array: bounds-checked. *)
Definition index (a : list Z) (i : nat) : Sys Z :=
  match a !! i with
  | Some x => ret x
  | None => fail (Panic PANIC_INDEX)
  end.

(** Checked arithmetic on [uintN]. *)
Definition checked_add (max a b : Z) : Sys Z :=
  if a + b <=? max then ret (a + b) else fail (Panic PANIC_ARITHMETIC).
Definition checked_sub (a b : Z) : Sys Z :=
  if b <=? a then ret (a - b) else fail (Panic PANIC_ARITHMETIC).

(** Table accessors. *)
Definition Encounter_get (key : Z) : Sys (Z * list Z) :=
  gets (fun s => default (0, []) (Encounter s !! key)).
Definition Encounter_setActionCount (key actionCount : Z) : Sys unit :=
  modify (with_Encounter (fun t =>
    <[key := (actionCount, (default (0, []) (t !! key)).2)]> t)).
Definition Encounter_deleteRecord (key : Z) : Sys unit :=
  modify (with_Encounter (delete key)).
Definition OwnedBy_set (key value : Z) : Sys unit :=
  modify (with_OwnedBy <[key := value]>).
Definition Monster_deleteRecord (key : Z) : Sys unit :=
  modify (with_Monster (delete key)).
Definition Health_get (key : Z) : Sys Z :=
  gets (fun s => default 0 (Health s !! key)).
Definition Health_set (key value : Z) : Sys unit :=
  modify (with_Health <[key := value]>).
Definition Strength_get (key : Z) : Sys Z :=
  gets (fun s => default 0 (Strength s !! key)).

(** What a call sees of its transaction: the sender and the block. *)
Record Context := mkContext {
  msgSender : address;
  block_difficulty : Z
}.

(** A transaction either commits the callee's store or is rolled back. *)
Inductive Status :=
| Success
| Failed (e : Failure).

Definition call (f : Sys unit) (s : Store) : Store * Status :=
  match f s with
  | Ok _ s' => (s', Success)
  | Fail e => (s, Failed e)
  end.

Section Contract.

(** [keccak256] of ABI-encoded words (each argument is one 32-byte word),
    read as a [uint256], and [addressToEntityKey] (from
    [../addressToEntityKey.sol], not part of the sources). *)
Variable keccak256 : list Z -> Z.
Variable addressToEntityKey : address -> bytes32.

Definition abi_encode (words : list Z) : list Z := words.

Definition throwBall (ctx : Context) : Sys unit :=
  let player := addressToEntityKey (msgSender ctx) in
  let* (actionCount, monsters) := Encounter_get player in
  require (negb (actionCount =? 0)) "not in this encounter";;
  let* monster := index monsters 0 in
  let rand :=
    keccak256 (abi_encode [player; monster; actionCount; block_difficulty ctx]) in
  if rand mod 2 =? 0 then
    OwnedBy_set monster player;;
    Encounter_deleteRecord player
  else if 2 <? actionCount then
    Encounter_deleteRecord player;;
    Monster_deleteRecord monster
  else
    let* actionCount' := checked_add uint256_max actionCount 1 in
    Encounter_setActionCount player actionCount'.

Definition flee (ctx : Context) : Sys unit :=
  let player := addressToEntityKey (msgSender ctx) in
  Encounter_deleteRecord player.

Definition attack (ctx : Context) : Sys unit :=
  let player := addressToEntityKey (msgSender ctx) in
  let* (actionCount, monsters) := Encounter_get player in
  let* monster := index monsters 0 in
  let* playerDamage := Strength_get player in
  let* monsterHealth := Health_get monster in
  let* newHealth := checked_sub monsterHealth playerDamage in
  Health_set monster newHealth.

(** The encounter states of section 4.4 of the specification: no record,
    or a record with a non-zero [actionCount] and, an encounter being
    between a player and one or more monsters, a non-empty monster list. *)
Definition NoEncounter (s : Store) (player : bytes32) : Prop :=
  Encounter s !! player = None.
Definition Engaged (s : Store) (player : bytes32)
    (actionCount : Z) (monsters : list Z) : Prop :=
  Encounter s !! player = Some (actionCount, monsters)
  /\ actionCount <> 0 /\ monsters <> [].

End Contract.

End EncounterSystem.

(** ** The client *)

Module Client.

(** Entities are numeric indices on the client ([EntityIndex]), with string
    identifiers ([EntityID]) as the ledger knows them.  Coordinates are
    integral JavaScript numbers. *)
Abbreviation EntityIndex := Z.
Abbreviation EntityID := string.
Abbreviation Error := string.

Record Coord := mkCoord { coord_x : Z; coord_y : Z }.

#[global] Instance Coord_eq_dec : EqDecision Coord.
Proof. solve_decision. Defined.

Record MapConfigValue := mkMapConfig { width : Z; height : Z }.
Record EncounterValue := mkEncounter {
  actionCount : Z;
  monsters : list EntityID
}.

(** The Replica Store: the authoritative value of every component the
    action layer reads, keyed by entity. *)
Record Replica := mkReplica {
  MapConfig : gmap Z MapConfigValue;
  Obstruction : gmap Z bool;
  Encounter : gmap Z EncounterValue;
  OwnedBy : gmap Z string;
  Position : gmap Z Coord;
  Player : gmap Z bool
}.

(** Modelled from the spec: [overridableComponent] comes from the recs
    library, which is not part of the sources.  Following sections 3 and 4.1
    of the specification, an override is [{id, entity, value}] on one
    component; several overrides may target the same entity and the most
    recently added one that is still present wins a read; removing an absent
    id does nothing.  The live overrides of a component are kept newest
    first. *)
Record Override (V : Type) := mkOverride { entity : Z; value : V }.
Arguments mkOverride {V} entity value.
Arguments entity {V} o.
Arguments value {V} o.

Abbreviation Overrides V := (list (string * Override V)).

Definition addOverride {V} (id : string) (update : Override V)
    (live : Overrides V) : Overrides V :=
  (id, update) :: live.

Definition removeOverride {V} (id : string) (live : Overrides V)
    : Overrides V :=
  filter (fun o => o.1 <> id) live.

Definition overriddenValue {V} (live : Overrides V) (values : gmap Z V)
    (e : Z) : option V :=
  match List.find (fun o => bool_decide (entity o.2 = e)) live with
  | Some o => Some (value o.2)
  | None => values !! e
  end.

Definition override_ids {V} (live : Overrides V) : list string := live.*1.

(** The state [setup] closes over. *)
Record Client := mkClient {
  playerEntity : option Z;
  singletonEntity : Z;
  fastTxExecutor : bool;
  entityToIndex : gmap string Z;
  entities : list string;
  replica : Replica;
  PositionOverrides : Overrides Coord;
  PlayerOverrides : Overrides bool
}.

Definition with_replica (f : Replica -> Replica) (c : Client) : Client :=
  mkClient (playerEntity c) (singletonEntity c) (fastTxExecutor c)
    (entityToIndex c) (entities c) (f (replica c))
    (PositionOverrides c) (PlayerOverrides c).
Definition with_PositionOverrides (f : Overrides Coord -> Overrides Coord)
    (c : Client) : Client :=
  mkClient (playerEntity c) (singletonEntity c) (fastTxExecutor c)
    (entityToIndex c) (entities c) (replica c)
    (f (PositionOverrides c)) (PlayerOverrides c).
Definition with_PlayerOverrides (f : Overrides bool -> Overrides bool)
    (c : Client) : Client :=
  mkClient (playerEntity c) (singletonEntity c) (fastTxExecutor c)
    (entityToIndex c) (entities c) (replica c)
    (PositionOverrides c) (f (PlayerOverrides c)).

(** What a call does that the outside can see. *)
Inductive Event :=
| PositionAddOverride (id : string) (update : Override Coord)
| PositionRemoveOverride (id : string)
| PlayerAddOverride (id : string) (update : Override bool)
| PlayerRemoveOverride (id : string)
| FastTxExecute (func : string) (args : list Z)
| ConsoleWarn (msg : string)
| ConsoleError (msg : string).

(** How an [async] function ends: its promise resolves, rejects, or stays
    pending for ever. *)
Inductive Completion (A : Type) :=
| Return (a : A)
| Throw (e : Error)
| Pending.
Arguments Return {A} a.
Arguments Throw {A} e.
Arguments Pending {A}.

Definition Act (A : Type) : Type := Client -> Completion A * Client * list Event.

Definition ret {A} (a : A) : Act A := fun c => (Return a, c, []).
Definition bind {A B} (m : Act A) (k : A -> Act B) : Act B :=
  fun c =>
    match m c with
    | (Return a, c', t) => let '(r, c'', t') := k a c' in (r, c'', t ++ t')
    | (Throw e, c', t) => (Throw e, c', t)
    | (Pending, c', t) => (Pending, c', t)
    end.
Definition throw {A} (e : Error) : Act A := fun c => (Throw e, c, []).
Definition gets {A} (f : Client -> A) : Act A := fun c => (Return (f c), c, []).
Definition modify (f : Client -> Client) : Act unit :=
  fun c => (Return tt, f c, []).
Definition emit (ev : Event) : Act unit := fun c => (Return tt, c, [ev]).

Notation "'let*' x ':=' m 'in' k" := (bind m (fun x => k))
  (at level 10, x pattern, m at level 100, k at level 200).
Notation "m ';;' k" := (bind m (fun _ => k))
  (at level 100, k at level 200, right associativity).

(** [try { body } finally { final }]: the finaliser runs when the body
    returns or throws, and not while the body is still suspended. *)
Definition try_finally {A} (body : Act A) (final : Act unit) : Act A :=
  fun c =>
    match body c with
    | (Pending, c', t) => (Pending, c', t)
    | (r, c', t) =>
        match final c' with
        | (Return _, c'', t') => (r, c'', t ++ t')
        | (Throw e, c'', t') => (Throw e, c'', t ++ t')
        | (Pending, c'', t') => (Pending, c'', t ++ t')
        end
    end.

(** [try { body } catch (error) { handler(error) }]. *)
Definition try_catch {A} (body : Act A) (handler : Error -> Act A) : Act A :=
  fun c =>
    match body c with
    | (Throw e, c', t) => let '(r, c'', t') := handler e c' in (r, c'', t ++ t')
    | other => other
    end.

(** What the environment answers during one call: the identifiers [uuid()]
    returns, how the executor's submission and the confirmation wait settle,
    and what the synchronisation path writes to the Replica Store while the
    call is suspended on the confirmation. *)
Inductive Settlement (A : Type) :=
| Resolved (a : A)
| Rejected (e : Error)
| NeverSettles.
Arguments Resolved {A} a.
Arguments Rejected {A} e.
Arguments NeverSettles {A}.

Record Oracle := mkOracle {
  positionId : string;
  playerId : string;
  transaction : Settlement string;
  confirmation : Settlement unit;
  sync : Replica -> Replica
}.

Definition uuid (fresh : string) : Act string := ret fresh.

Definition console_warn (msg : string) : Act unit := emit (ConsoleWarn msg).
Definition console_error (msg : string) : Act unit := emit (ConsoleError msg).

Definition Position_addOverride (id : string) (update : Override Coord)
    : Act unit :=
  emit (PositionAddOverride id update);;
  modify (with_PositionOverrides (addOverride id update)).
Definition Position_removeOverride (id : string) : Act unit :=
  emit (PositionRemoveOverride id);;
  modify (with_PositionOverrides (removeOverride id)).
Definition Player_addOverride (id : string) (update : Override bool)
    : Act unit :=
  emit (PlayerAddOverride id update);;
  modify (with_PlayerOverrides (addOverride id update)).
Definition Player_removeOverride (id : string) : Act unit :=
  emit (PlayerRemoveOverride id);;
  modify (with_PlayerOverrides (removeOverride id)).

(** Reads of the components; [Position] and [Player] are overridable. *)
Definition getPosition (c : Client) (e : Z) : option Coord :=
  overriddenValue (PositionOverrides c) (Position (replica c)) e.
Definition getPlayer (c : Client) (e : Z) : option bool :=
  overriddenValue (PlayerOverrides c) (Player (replica c)) e.

(** [fastTxExecutor.fastTxExecute(contract, func, args)] followed by
    [await tx]. *)
Definition fastTxExecute (o : Oracle) (func : string) (args : list Z)
    : Act string :=
  fun c =>
    match transaction o with
    | Resolved tx => (Return tx, c, [FastTxExecute func args])
    | Rejected e => (Throw e, c, [FastTxExecute func args])
    | NeverSettles => (Pending, c, [FastTxExecute func args])
    end.

(** [awaitStreamValue(result.txReduced$, (txHash) => txHash === tx.hash)]. *)
Definition awaitStreamValue (o : Oracle) (txHash : string) : Act unit :=
  fun c =>
    match confirmation o with
    | Resolved _ => (Return tt, with_replica (sync o) c, [])
    | Rejected e => (Throw e, with_replica (sync o) c, [])
    | NeverSettles => (Pending, c, [])
    end.

(** A JavaScript array read [a[i]]. *)
Definition js_index {A} (a : list A) (i : Z) : option A :=
  if i <? 0 then None else a !! Z.to_nat i.

Section Setup.

(** [extractContractError] (from [./extractContractError], not part of the
    sources) and [normalizeEntityID] (from the network library). *)
Variable extractContractError : Error -> string.
Variable normalizeEntityID : string -> string.

(** [worldSend = bindFastTxExecute(worldContract)]. *)
Definition worldSend (o : Oracle) (func : string) (args : list Z)
    : Act string :=
  let* executor := gets fastTxExecutor in
  if negb executor then throw "no signer"
  else
    try_catch (fastTxExecute o func args)
      (fun error => console_error (extractContractError error);; throw error).

Definition wrapPosition (x y : Z) : Act (Z * Z) :=
  let* mapConfig :=
    gets (fun c => MapConfig (replica c) !! singletonEntity c) in
  match mapConfig with
  | None => throw "mapConfig no yet loaded or initialized"
  | Some mapConfig =>
      ret (Z.rem (x + width mapConfig) (width mapConfig),
           Z.rem (y + height mapConfig) (height mapConfig))
  end.

(** [runQuery([Has(Obstruction), HasValue(Position, {x, y})]).size > 0]. *)
Definition isObstructed (x y : Z) : Act bool :=
  gets (fun c =>
    existsb (fun e => bool_decide (getPosition c e = Some (mkCoord x y)))
      (elements (dom (Obstruction (replica c))))).

Definition moveTo (o : Oracle) (x y : Z) : Act unit :=
  let* playerEntity := gets playerEntity in
  match playerEntity with
  | None => throw "no player"
  | Some playerEntity =>
  if playerEntity =? 0 then throw "no player" else
  let* (wrappedX, wrappedY) := wrapPosition x y in
  let* obstructed := isObstructed wrappedX wrappedY in
  if obstructed then console_warn "cannot move to obstructed space" else
  let* inEncounter :=
    gets (fun c => bool_decide (is_Some (Encounter (replica c) !! playerEntity))) in
  if inEncounter then console_warn "cannot move while in encounter" else
  let* positionId := uuid (positionId o) in
  Position_addOverride positionId
    (mkOverride playerEntity (mkCoord wrappedX wrappedY));;
  try_finally
    (let* tx := worldSend o "move" [x; y] in
     awaitStreamValue o tx)
    (Position_removeOverride positionId)
  end.

Definition moveBy (o : Oracle) (deltaX deltaY : Z) : Act unit :=
  let* playerEntity := gets playerEntity in
  match playerEntity with
  | None => throw "no player"
  | Some playerEntity =>
  if playerEntity =? 0 then throw "no player" else
  let* playerPosition := gets (fun c => getPosition c playerEntity) in
  match playerPosition with
  | None =>
      console_warn "cannot moveBy without a player position, not yet spawned?"
  | Some playerPosition =>
      moveTo o (coord_x playerPosition + deltaX) (coord_y playerPosition + deltaY)
  end
  end.

Definition spawn (o : Oracle) (x y : Z) : Act unit :=
  let* playerEntity := gets playerEntity in
  match playerEntity with
  | None => throw "no player"
  | Some playerEntity =>
  if playerEntity =? 0 then throw "no player" else
  let* canSpawn :=
    gets (fun c => negb (bool_decide (getPlayer c playerEntity = Some true))) in
  if negb canSpawn then throw "already spawned" else
  let* (wrappedX, wrappedY) := wrapPosition x y in
  let* obstructed := isObstructed wrappedX wrappedY in
  if obstructed then console_warn "cannot spawn on obstructed space" else
  let* positionId := uuid (positionId o) in
  Position_addOverride positionId
    (mkOverride playerEntity (mkCoord wrappedX wrappedY));;
  let* playerId := uuid (playerId o) in
  Player_addOverride playerId (mkOverride playerEntity true);;
  try_finally
    (let* tx := worldSend o "spawn" [wrappedX; wrappedY] in
     awaitStreamValue o tx)
    (Position_removeOverride positionId;;
     Player_removeOverride playerId)
  end.

Inductive ThrowStatus := caught | fled | miss.

(** [encounter.monsters.some(...)]: a monster of the encounter is known to
    the world (index [0] and the empty string are falsy) and its owner is
    the player. *)
Definition hasCaught (c : Client) (player : Z) (encounter : EncounterValue)
    : bool :=
  existsb (fun monsterId =>
    match entityToIndex c !! monsterId with
    | None => false
    | Some monster =>
        if monster =? 0 then false else
        match OwnedBy (replica c) !! monster with
        | None => false
        | Some owner =>
            if bool_decide (owner = "") then false
            else bool_decide
                   (Some (normalizeEntityID owner) = js_index (entities c) player)
        end
    end) (monsters encounter).

Definition throwBall (o : Oracle) : Act ThrowStatus :=
  let* player := gets playerEntity in
  match player with
  | None => throw "no player"
  | Some player =>
  if player =? 0 then throw "no player" else
  let* encounter := gets (fun c => Encounter (replica c) !! player) in
  match encounter with
  | None => throw "no encounter"
  | Some encounter =>
  let* tx := worldSend o "throwBall" [] in
  awaitStreamValue o tx;;
  let* hasCaught := gets (fun c => hasCaught c player encounter) in
  if hasCaught then ret caught else
  let* stillThere :=
    gets (fun c => bool_decide (is_Some (Encounter (replica c) !! player))) in
  if negb stillThere then ret fled else
  ret miss
  end
  end.

Definition attack (o : Oracle) : Act unit :=
  let* tx := worldSend o "attack" [] in
  awaitStreamValue o tx.

Definition fleeEncounter (o : Oracle) : Act unit :=
  let* tx := worldSend o "flee" [] in
  awaitStreamValue o tx.

End Setup.

(** The meaning of the obstruction query: some entity with an
    [Obstruction] value is, as the client reads positions, at the cell. *)
Definition obstruction_at (c : Client) (cell : Coord) : Prop :=
  exists e, is_Some (Obstruction (replica c) !! e) /\ getPosition c e = Some cell.

(** What a trace says about overrides and submissions. *)
Definition is_submission (ev : Event) : bool :=
  match ev with FastTxExecute _ _ => true | _ => false end.
Definition is_override_creation (ev : Event) : bool :=
  match ev with
  | PositionAddOverride _ _ | PlayerAddOverride _ _ => true
  | _ => false
  end.
Definition submissions (t : list Event) : list Event :=
  List.filter is_submission t.
Definition override_creations (t : list Event) : list Event :=
  List.filter is_override_creation t.

(** The overrides a trace creates and releases, by component and id. *)
Definition created (t : list Event) : list (string * string) :=
  omap (fun ev =>
    match ev with
    | PositionAddOverride id _ => Some ("Position", id)
    | PlayerAddOverride id _ => Some ("Player", id)
    | _ => None
    end) t.
Definition released (t : list Event) : list (string * string) :=
  omap (fun ev =>
    match ev with
    | PositionRemoveOverride id => Some ("Position", id)
    | PlayerRemoveOverride id => Some ("Player", id)
    | _ => None
    end) t.

(** A trace with the arguments of its submissions blanked. *)
Definition without_args (ev : Event) : Event :=
  match ev with
  | FastTxExecute func _ => FastTxExecute func []
  | other => other
  end.

End Client.

(** ** Concrete inputs *)

Module Examples.

(** Stand-ins for the hash and the key derivation, to run the contract. *)
Definition sum_hash (words : list Z) : Z := foldr Z.add 0 words.
Definition key_of (a : Z) : Z := a.

(** Alice is entity 7; with [sum_hash] her throws at monster 100 with
    [actionCount] 1 or 3 derive an odd value in [odd_block] and an even one
    in [even_block]. *)
Definition odd_block : EncounterSystem.Context := EncounterSystem.mkContext 7 1.
Definition even_block : EncounterSystem.Context := EncounterSystem.mkContext 7 0.

(** Alice in an encounter with monster 100. *)
Definition store_of (actionCount health strength : Z) : EncounterSystem.Store :=
  EncounterSystem.mkStore {[ 7 := (actionCount, [100]) ]} ∅ {[ 100 := 1 ]}
    {[ 100 := health ]} {[ 7 := strength ]}.

(** Nobody is in an encounter. *)
Definition quiet_store : EncounterSystem.Store :=
  EncounterSystem.mkStore ∅ ∅ {[ 100 := 1 ]} {[ 100 := 3 ]} {[ 7 := 5 ]}.

(** A 3 by 3 world: the player is entity 1 at (2, 0), entity 2 is an
    obstruction at (1, 1). *)
Definition world0 : Client.Replica :=
  Client.mkReplica {[ 0 := Client.mkMapConfig 3 3 ]} {[ 2 := true ]} ∅ ∅
    {[ 1 := Client.mkCoord 2 0; 2 := Client.mkCoord 1 1 ]} ∅.
Definition client0 : Client.Client :=
  Client.mkClient (Some 1) 0 true {[ "0x01" := 1; "0x02" := 2 ]}
    ["0x00"; "0x01"; "0x02"] world0 [] [].
Definition client_no_signer : Client.Client :=
  Client.mkClient (Some 1) 0 false {[ "0x01" := 1; "0x02" := 2 ]}
    ["0x00"; "0x01"; "0x02"] world0 [] [].
Definition client_no_player : Client.Client :=
  Client.mkClient None 0 true {[ "0x02" := 2 ]}
    ["0x00"; "0x01"; "0x02"] world0 [] [].

(** The ledger accepts and confirms; nothing else changes meanwhile. *)
Definition oracle0 : Client.Oracle :=
  Client.mkOracle "position-1" "player-1"
    (Client.Resolved "0xabc") (Client.Resolved tt) (fun r => r).

(** The ledger rejects the submission; the confirmation never arrives. *)
Definition oracle_rejecting : Client.Oracle :=
  Client.mkOracle "position-1" "player-1"
    (Client.Rejected "reverted") (Client.Resolved tt) (fun r => r).
Definition oracle_silent : Client.Oracle :=
  Client.mkOracle "position-1" "player-1"
    (Client.Resolved "0xabc") Client.NeverSettles (fun r => r).

Definition error_text (e : string) : string := e.
Definition normalized (id : string) : string := id.

(** Alice with an encounter record that lists no monster. *)
Definition store_without_monsters : EncounterSystem.Store :=
  EncounterSystem.mkStore {[ 7 := (1, []) ]} ∅ {[ 100 := 1 ]}
    {[ 100 := 3 ]} {[ 7 := 5 ]}.

End Examples.

(** ** Invariants of the tables *)

Module Invariants.
Import EncounterSystem.

(** Every encounter record of [s'] was already in [s], with the same
    monsters and an [actionCount] that is the old one or one more. *)
Definition records_kept (s s' : Store) : Prop :=
  forall player e',
    Encounter s' !! player = Some e' ->
    exists e, Encounter s !! player = Some e
      /\ e'.2 = e.2 /\ e.1 <= e'.1 <= e.1 + 1.

(** No encounter has seen more than three throws. *)
Definition actionCount_bounded (s : Store) : Prop :=
  forall player e, Encounter s !! player = Some e -> e.1 <= 3.

(** The values of a [uint32] table are in range. *)
Definition uint32_values (t : gmap Z Z) : Prop :=
  forall key v, t !! key = Some v -> 0 <= v < 2 ^ 32.

End Invariants.

(** ** Views of the client *)

Module Views.
Import Client.

(** The answer of the obstruction query, as a function of the state. *)
Definition obstructed (c : Client) (x y : Z) : bool :=
  existsb (fun e => bool_decide (getPosition c e = Some (mkCoord x y)))
    (elements (dom (Obstruction (replica c)))).

(** What [setup] fixes once and for all: the player, the singleton entity,
    the executor and the world's entity registry. *)
Definition same_setup (c c' : Client) : Prop :=
  playerEntity c' = playerEntity c
  /\ singletonEntity c' = singletonEntity c
  /\ fastTxExecutor c' = fastTxExecutor c
  /\ entityToIndex c' = entityToIndex c
  /\ entities c' = entities c.

(** The verbs of the [api] object [setup] returns. *)
Inductive Verb :=
| MoveTo (x y : Z)
| MoveBy (deltaX deltaY : Z)
| Spawn (x y : Z)
| ThrowBall
| FleeEncounter
| Attack.

(** A run without the value it returns. *)
Definition outcome {A} (run : Completion A * Client * list Event)
    : Completion unit * Client * list Event :=
  match run with
  | (Return _, c, t) => (Return tt, c, t)
  | (Throw e, c, t) => (Throw e, c, t)
  | (Pending, c, t) => (Pending, c, t)
  end.

Section Api.

Variable extractContractError : Error -> string.
Variable normalizeEntityID : string -> string.

Definition api (o : Oracle) (verb : Verb)
    : Client -> Completion unit * Client * list Event :=
  match verb with
  | MoveTo x y => moveTo extractContractError o x y
  | MoveBy deltaX deltaY => moveBy extractContractError o deltaX deltaY
  | Spawn x y => spawn extractContractError o x y
  | ThrowBall =>
      fun c => outcome (throwBall extractContractError normalizeEntityID o c)
  | FleeEncounter => fleeEncounter extractContractError o
  | Attack => attack extractContractError o
  end.

(** Submitting a call and awaiting its confirmation, the tail every verb
    shares, case by case. *)
Definition submitted (o : Oracle) (func : string) (args : list Z) (c : Client)
    : Completion unit * Client * list Event :=
  if fastTxExecutor c then
    match transaction o with
    | Resolved _ =>
        match confirmation o with
        | Resolved _ =>
            (Return tt, with_replica (sync o) c, [FastTxExecute func args])
        | Rejected e =>
            (Throw e, with_replica (sync o) c, [FastTxExecute func args])
        | NeverSettles => (Pending, c, [FastTxExecute func args])
        end
    | Rejected e =>
        (Throw e, c,
         [FastTxExecute func args; ConsoleError (extractContractError e)])
    | NeverSettles => (Pending, c, [FastTxExecute func args])
    end
  else (Throw "no signer", c, []).

(** A run inside [try { ... } finally { release }], after [created]. *)
Definition guarded (created : list Event) (release : Client -> Client)
    (released : list Event) (run : Completion unit * Client * list Event)
    : Completion unit * Client * list Event :=
  match run with
  | (Pending, c, t) => (Pending, c, created ++ t)
  | (r, c, t) => (r, release c, created ++ t ++ released)
  end.

End Api.

End Views.

(** ** The encounter screen's buttons *)

Module Screen.
Import Client.

(** The toasts a click shows: [toast.loading] and [toast.update]. *)
Inductive ToastType := toast_success | toast_error | toast_default.

Record ToastOptions := mkToastOptions {
  isLoading : bool;
  type : ToastType;
  render : string;
  autoClose : Z;
  closeButton : bool
}.

Inductive Toast :=
| ToastLoading (toastId : Z) (content : string)
| ToastUpdate (toastId : Z) (options : ToastOptions).

Definition Handler : Type :=
  Client -> Completion unit * Client * list Event * list Toast.

Section Buttons.

Variable extractContractError : Error -> string.
Variable normalizeEntityID : string -> string.

(** [monsterType.name], and the identifier [toast.loading] returns. *)
Variable monsterName : string.
Variable toastId : Z.

Definition onThrowClick (o : Oracle) : Handler :=
  fun c =>
    let loading := ToastLoading toastId "Throwing emojiball…" in
    match throwBall extractContractError normalizeEntityID o c with
    | (Return status, c', t) =>
        let options :=
          match status with
          | caught =>
              mkToastOptions false toast_success
                (String.append "You caught the " (String.append monsterName "!"))
                5000 true
          | fled =>
              mkToastOptions false toast_error
                (String.append "Oh no, the "
                   (String.append monsterName " fled!"))
                5000 true
          | miss => mkToastOptions false toast_error "You missed!" 5000 true
          end in
        (Return tt, c', t, [loading; ToastUpdate toastId options])
    | (Throw e, c', t) => (Throw e, c', t, [loading])
    | (Pending, c', t) => (Pending, c', t, [loading])
    end.

Definition onAttackClick (o : Oracle) : Handler :=
  fun c =>
    match attack extractContractError o c with
    | (r, c', t) => (r, c', t, [])
    end.

Definition onRunClick (o : Oracle) : Handler :=
  fun c =>
    let loading := ToastLoading toastId "Running away…" in
    match fleeEncounter extractContractError o c with
    | (Return _, c', t) =>
        (Return tt, c', t,
         [loading;
          ToastUpdate toastId
            (mkToastOptions false toast_default "You ran away!" 5000 true)])
    | (Throw e, c', t) => (Throw e, c', t, [loading])
    | (Pending, c', t) => (Pending, c', t, [loading])
    end.

End Buttons.

End Screen.

(** ** More concrete inputs *)

Module MoreExamples.
Import Client.
Import Examples.

Definition with_world (r : Replica) (c : Client) : Client :=
  with_replica (fun _ => r) c.

(** The map configuration has not arrived yet. *)
Definition client_no_map : Client :=
  with_world
    (mkReplica ∅ {[ 2 := true ]} ∅ ∅
       {[ 1 := mkCoord 2 0; 2 := mkCoord 1 1 ]} ∅)
    client0.

(** The player has no position yet. *)
Definition client_unspawned : Client :=
  with_world
    (mkReplica {[ 0 := mkMapConfig 3 3 ]} {[ 2 := true ]} ∅ ∅
       {[ 2 := mkCoord 1 1 ]} ∅)
    client0.

(** The player is in an encounter with the monster "0x03", entity 3. *)
Definition encounter0 : EncounterValue := mkEncounter 1 ["0x03"].
Definition world_engaged : Replica :=
  mkReplica {[ 0 := mkMapConfig 3 3 ]} {[ 2 := true ]}
    {[ 1 := encounter0 ]} ∅
    {[ 1 := mkCoord 2 0; 2 := mkCoord 1 1 ]} {[ 1 := true ]}.
Definition client_engaged : Client :=
  mkClient (Some 1) 0 true {[ "0x01" := 1; "0x02" := 2; "0x03" := 3 ]}
    ["0x00"; "0x01"; "0x02"; "0x03"] world_engaged [] [].

(** The ledger has caught the monster for the player: the encounter is
    gone and the player owns entity 3. *)
Definition world_caught : Replica :=
  mkReplica {[ 0 := mkMapConfig 3 3 ]} {[ 2 := true ]}
    ∅ {[ 3 := "0x01" ]}
    {[ 1 := mkCoord 2 0; 2 := mkCoord 1 1 ]} {[ 1 := true ]}.
Definition oracle_catching : Oracle :=
  mkOracle "position-1" "player-1" (Resolved "0xabc") (Resolved tt)
    (fun _ => world_caught).

End MoreExamples.

(** ** Properties of the contract *)

Module EncounterSystemSpec.
Import EncounterSystem.

Import Examples.

Section EncounterProperties.

Variable keccak256 : list Z -> Z.
Variable addressToEntityKey : address -> bytes32.

Abbreviation throwBall := (EncounterSystem.throwBall keccak256 addressToEntityKey).
Abbreviation flee := (EncounterSystem.flee addressToEntityKey).
Abbreviation attack := (EncounterSystem.attack addressToEntityKey).

Lemma parity_test (n : Z) : (n mod 2 =? 0) = Z.even n.
Proof. rewrite Zmod_even. by destruct (Z.even n). Qed.

(** What [throwBall] does once the guard and the array read have passed. *)
Lemma throwBall_engaged ctx s actionCount monster rest :
  let player := addressToEntityKey (msgSender ctx) in
  let rand := keccak256 [player; monster; actionCount; block_difficulty ctx] in
  Encounter s !! player = Some (actionCount, monster :: rest) ->
  actionCount <> 0 ->
  throwBall ctx s =
    if Z.even rand then
      Ok tt (with_Encounter (delete player) (with_OwnedBy <[monster := player]> s))
    else if 2 <? actionCount then
      Ok tt (with_Monster (delete monster) (with_Encounter (delete player) s))
    else if actionCount + 1 <=? uint256_max then
      Ok tt (with_Encounter <[player := (actionCount + 1, monster :: rest)]> s)
    else Fail (Panic PANIC_ARITHMETIC).
Proof.
  intros player rand Hrec Hac.
  unfold EncounterSystem.throwBall, bind, Encounter_get, gets.
  change (addressToEntityKey (msgSender ctx)) with player.
  rewrite Hrec. cbn -[Z.modulo Z.add uint256_max].
  rewrite (proj2 (Z.eqb_neq _ _) Hac). cbn -[Z.modulo Z.add uint256_max].
  unfold abi_encode. fold rand. rewrite parity_test.
  destruct (Z.even rand); [done|].
  destruct (2 <? actionCount); [done|].
  unfold checked_add.
  destruct (actionCount + 1 <=? uint256_max); [|done].
  unfold Encounter_setActionCount, modify, ret, with_Encounter.
  by rewrite Hrec.
Qed.

(** C1: a throw by a player whose encounter has [actionCount >= 1] captures
    the monster when the derived value is even (the monster is owned by the
    player and the encounter record is deleted), lets it escape when the
    value is odd and [actionCount > 2] (the encounter record and the monster
    record are deleted), and otherwise misses (the encounter stays and
    [actionCount] grows by exactly one).  In particular an odd value at
    [actionCount = 1] leaves the encounter with [actionCount = 2], and an odd
    value at [actionCount = 3] ends the encounter and destroys the monster
    record. *)
Theorem throwBall_resolution ctx s actionCount monster rest :
  let player := addressToEntityKey (msgSender ctx) in
  let rand := keccak256 [player; monster; actionCount; block_difficulty ctx] in
  Encounter s !! player = Some (actionCount, monster :: rest) ->
  1 <= actionCount ->
  (Z.even rand = true ->
     call (throwBall ctx) s =
       (with_Encounter (delete player) (with_OwnedBy <[monster := player]> s),
        Success))
  /\ (Z.even rand = false -> 2 < actionCount ->
     call (throwBall ctx) s =
       (with_Monster (delete monster) (with_Encounter (delete player) s),
        Success))
  /\ (Z.even rand = false -> actionCount <= 2 ->
     call (throwBall ctx) s =
       (with_Encounter <[player := (actionCount + 1, monster :: rest)]> s,
        Success))
  /\ (Z.even rand = false -> actionCount = 1 ->
     exists s', call (throwBall ctx) s = (s', Success)
       /\ Encounter s' !! player = Some (2, monster :: rest)
       /\ Monster s' = Monster s)
  /\ (Z.even rand = false -> actionCount = 3 ->
     exists s', call (throwBall ctx) s = (s', Success)
       /\ Encounter s' !! player = None
       /\ Monster s' !! monster = None).
Proof.
  intros player rand Hrec Hac.
  assert (Hstep := throwBall_engaged ctx s actionCount monster rest Hrec).
  cbn zeta in Hstep. fold player rand in Hstep.
  unfold call. rewrite Hstep by lia. clear Hstep.
  repeat split.
  - by intros ->.
  - intros -> Hgt. by destruct (Z.ltb_spec 2 actionCount); [|lia].
  - intros -> Hle. destruct (Z.ltb_spec 2 actionCount); [lia|].
    destruct (Z.leb_spec (actionCount + 1) uint256_max); [done|].
    unfold uint256_max in *. lia.
  - intros -> ->. eexists. split; [reflexivity|]. cbn.
    split; [|done]. by rewrite lookup_insert_eq.
  - intros -> ->. eexists. split; [reflexivity|]. cbn.
    by rewrite !lookup_delete_eq.
Qed.

(** C5: a throw by a player whose encounter record is absent, or has
    [actionCount = 0], fails with the not-in-encounter error and changes
    nothing; that error is raised exactly when [actionCount] reads as zero,
    and the call succeeds exactly when the player is engaged. *)
Theorem throwBall_guard ctx s :
  let player := addressToEntityKey (msgSender ctx) in
  let not_in_encounter := Failed (Revert "not in this encounter") in
  (Encounter s !! player = None \/
   (exists monsters, Encounter s !! player = Some (0, monsters)) ->
   call (throwBall ctx) s = (s, not_in_encounter))
  /\ ((call (throwBall ctx) s).2 = not_in_encounter <->
      (default (0, []) (Encounter s !! player)).1 = 0)
  /\ ((call (throwBall ctx) s).2 = Success <->
      exists actionCount monsters, Engaged s player actionCount monsters).
Proof.
  intros player not_in_encounter. subst not_in_encounter.
  assert (Hzero : forall monsters,
    default (0, []) (Encounter s !! player) = (0, monsters) ->
    throwBall ctx s = Fail (Revert "not in this encounter")).
  { intros monsters Hget.
    unfold EncounterSystem.throwBall, bind, Encounter_get, gets.
    change (addressToEntityKey (msgSender ctx)) with player.
    by rewrite Hget. }
  assert (Hempty : forall actionCount, actionCount <> 0 ->
    Encounter s !! player = Some (actionCount, []) ->
    throwBall ctx s = Fail (Panic PANIC_INDEX)).
  { intros actionCount Hac Hrec.
    unfold EncounterSystem.throwBall, bind, Encounter_get, gets.
    change (addressToEntityKey (msgSender ctx)) with player.
    rewrite Hrec. cbn. by rewrite (proj2 (Z.eqb_neq _ _) Hac). }
  assert (Hstep := throwBall_engaged ctx s). cbn zeta in Hstep.
  change (addressToEntityKey (msgSender ctx)) with player in Hstep.
  unfold call, Engaged.
  destruct (Encounter s !! player) as [[actionCount monsters]|] eqn:Hrec;
    cbn [default fst] in *.
  2: { rewrite (Hzero []) by done. cbn. split; [done|]. split; [done|].
       split; [done|]. intros (? & ? & Heq & _). congruence. }
  destruct (decide (actionCount = 0)) as [->|Hac].
  { rewrite (Hzero monsters) by done. cbn. split; [done|]. split; [done|].
    split; [done|]. intros (? & ? & Heq & ? & _). congruence. }
  destruct monsters as [|monster rest].
  { rewrite (Hempty actionCount) by done. cbn. split.
    { intros [|[? ?]]; congruence. }
    split; [done|]. split; [done|]. intros (? & ? & Heq & _ & ?). congruence. }
  rewrite (Hstep actionCount monster rest) by done.
  assert (Hok : exists s',
    (if Z.even (keccak256 [player; monster; actionCount; block_difficulty ctx])
     then Ok tt (with_Encounter (delete player)
                   (with_OwnedBy <[monster := player]> s))
     else if 2 <? actionCount
     then Ok tt (with_Monster (delete monster)
                   (with_Encounter (delete player) s))
     else if actionCount + 1 <=? uint256_max
     then Ok tt (with_Encounter
                   <[player := (actionCount + 1, monster :: rest)]> s)
     else Fail (Panic PANIC_ARITHMETIC)) = Ok tt s').
  { destruct (Z.even _); [by eexists|].
    destruct (Z.ltb_spec 2 actionCount); [by eexists|].
    destruct (Z.leb_spec (actionCount + 1) uint256_max); [by eexists|].
    unfold uint256_max in *. lia. }
  destruct Hok as [s' ->]. cbn. split.
  { intros [|[? ?]]; congruence. }
  split; [split; [done|congruence]|]. split; [|done]. intros _.
  exists actionCount, (monster :: rest). by repeat split.
Qed.

(** C8: [flee] never fails and always leaves the caller without an
    encounter record, whether or not one existed; fleeing again succeeds
    again and changes nothing, and fleeing without an encounter is a
    successful no-op. *)
Theorem flee_idempotent ctx s :
  let player := addressToEntityKey (msgSender ctx) in
  exists s1,
    call (flee ctx) s = (s1, Success)
    /\ NoEncounter s1 player
    /\ call (flee ctx) s1 = (s1, Success)
    /\ (NoEncounter s player -> s1 = s).
Proof.
  intros player. exists (with_Encounter (delete player) s).
  unfold call, EncounterSystem.flee, Encounter_deleteRecord, modify, NoEncounter.
  change (addressToEntityKey (msgSender ctx)) with player.
  repeat split.
  - cbn. apply lookup_delete_eq.
  - unfold with_Encounter. cbn. by rewrite delete_delete_eq.
  - intros Hnone. destruct s as [enc ? ? ? ?]. unfold with_Encounter. cbn in *.
    by rewrite delete_id.
Qed.

(** C10: [flee] deletes the caller's encounter record and nothing else: the
    monster records, the health, strength and ownership values and the
    encounter record of every other player are what they were. *)
Theorem flee_frame ctx s :
  let player := addressToEntityKey (msgSender ctx) in
  exists s',
    call (flee ctx) s = (s', Success)
    /\ Monster s' = Monster s
    /\ Health s' = Health s
    /\ Strength s' = Strength s
    /\ OwnedBy s' = OwnedBy s
    /\ (forall other, other <> player ->
        Encounter s' !! other = Encounter s !! other).
Proof.
  intros player. exists (with_Encounter (delete player) s).
  repeat split. intros other Hother. cbn. by rewrite lookup_delete_ne.
Qed.

(** C9: [attack] does not check that the caller is in an encounter: without
    an encounter record it reads an empty monster list and aborts on the
    out-of-bounds read of [monsters[0]], where [throwBall] in the same state
    fails with its not-in-encounter error. *)
Theorem attack_without_encounter ctx s :
  let player := addressToEntityKey (msgSender ctx) in
  Encounter s !! player = None ->
  (Encounter_get player s = Ok (0, []) s)
  /\ call (attack ctx) s = (s, Failed (Panic PANIC_INDEX))
  /\ call (throwBall ctx) s = (s, Failed (Revert "not in this encounter")).
Proof.
  intros player Hnone.
  unfold call, EncounterSystem.attack, EncounterSystem.throwBall, bind,
    Encounter_get, gets.
  change (addressToEntityKey (msgSender ctx)) with player.
  by rewrite Hnone.
Qed.

(** C3, as amended: an attack by a player whose encounter record lists a
    monster sets that monster's health to its previous health minus the
    player's strength when the strength does not exceed the health; when it
    does, the checked [uint32] subtraction aborts the call and the health
    stays what it was, so the health never goes negative. *)
Theorem attack_health ctx s actionCount monster rest :
  let player := addressToEntityKey (msgSender ctx) in
  let playerDamage := default 0 (Strength s !! player) in
  let monsterHealth := default 0 (Health s !! monster) in
  Encounter s !! player = Some (actionCount, monster :: rest) ->
  (playerDamage <= monsterHealth ->
     call (attack ctx) s =
       (with_Health <[monster := monsterHealth - playerDamage]> s, Success))
  /\ (monsterHealth < playerDamage ->
     call (attack ctx) s = (s, Failed (Panic PANIC_ARITHMETIC))).
Proof.
  intros player playerDamage monsterHealth Hrec.
  unfold call, EncounterSystem.attack, bind, Encounter_get, gets,
    Strength_get, Health_get, checked_sub.
  change (addressToEntityKey (msgSender ctx)) with player.
  rewrite Hrec. cbn -[Z.sub].
  fold playerDamage monsterHealth.
  destruct (Z.leb_spec playerDamage monsterHealth); split; (done || lia).
Qed.

End EncounterProperties.

(** The three outcomes of a throw, run. *)
Example throwBall_capture :
  call (throwBall sum_hash key_of even_block) (store_of 1 3 5)
  = (mkStore ∅ {[ 100 := 7 ]} {[ 100 := 1 ]} {[ 100 := 3 ]} {[ 7 := 5 ]},
     Success).
Proof. reflexivity. Qed.

Example throwBall_escape :
  call (throwBall sum_hash key_of odd_block) (store_of 3 3 5)
  = (mkStore ∅ ∅ ∅ {[ 100 := 3 ]} {[ 7 := 5 ]}, Success).
Proof. reflexivity. Qed.

Example throwBall_miss :
  call (throwBall sum_hash key_of odd_block) (store_of 1 3 5)
  = (store_of 2 3 5, Success).
Proof. reflexivity. Qed.

Lemma throwBall_resolution_witness :
  call (throwBall sum_hash key_of odd_block) (store_of 1 3 5)
  = (with_Encounter <[7 := (2, [100])]> (store_of 1 3 5), Success).
Proof.
  refine (proj1 (proj2 (proj2
    (throwBall_resolution sum_hash key_of odd_block (store_of 1 3 5)
       1 100 [] _ _))) _ _);
    [reflexivity | lia | reflexivity | lia].
Defined.

Lemma throwBall_guard_witness :
  call (throwBall sum_hash key_of odd_block) quiet_store
  = (quiet_store, Failed (Revert "not in this encounter")).
Proof.
  apply (proj1 (throwBall_guard sum_hash key_of odd_block quiet_store)).
  left. reflexivity.
Defined.

Lemma flee_idempotent_witness :
  exists s1,
    call (flee key_of odd_block) quiet_store = (s1, Success)
    /\ s1 = quiet_store.
Proof.
  destruct (flee_idempotent key_of odd_block quiet_store)
    as (s1 & Hcall & _ & _ & Hnoop).
  exists s1. split; [exact Hcall|]. apply Hnoop. reflexivity.
Defined.

Lemma flee_frame_witness :
  exists s',
    call (flee key_of odd_block) (store_of 2 3 5) = (s', Success)
    /\ Monster s' !! 100 = Some 1
    /\ Encounter s' !! 8 = None.
Proof.
  destruct (flee_frame key_of odd_block (store_of 2 3 5))
    as (s' & Hcall & HMonster & _ & _ & _ & Hothers).
  exists s'. split; [exact Hcall|]. split.
  - rewrite HMonster. reflexivity.
  - rewrite (Hothers 8) by (vm_compute; discriminate). reflexivity.
Defined.

Lemma attack_without_encounter_witness :
  call (attack key_of odd_block) quiet_store
  = (quiet_store, Failed (Panic PANIC_INDEX)).
Proof.
  apply (attack_without_encounter sum_hash key_of odd_block quiet_store).
  reflexivity.
Defined.

Lemma attack_health_witness :
  call (attack key_of odd_block) (store_of 1 9 5)
  = (with_Health <[100 := 4]> (store_of 1 9 5), Success).
Proof.
  refine (proj1
    (attack_health key_of odd_block (store_of 1 9 5) 1 100 [] _) _);
    [reflexivity | vm_compute; discriminate].
Defined.

(** The claim C3 as stated fails: with health 3 and strength 5 the attack
    does not complete, and the health is not [3 - 5]. *)
Lemma attack_underflow_counterexample :
  call (attack key_of odd_block) (store_of 1 3 5)
  = (store_of 1 3 5, Failed (Panic PANIC_ARITHMETIC))
  /\ ~ (exists s', call (attack key_of odd_block) (store_of 1 3 5) = (s', Success)
          /\ Health s' !! 100 = Some (3 - 5)).
Proof.
  assert (Hrun : call (attack key_of odd_block) (store_of 1 3 5)
                 = (store_of 1 3 5, Failed (Panic PANIC_ARITHMETIC)))
    by reflexivity.
  split; [exact Hrun|]. rewrite Hrun. intros (s' & Heq & _). discriminate.
Qed.

End EncounterSystemSpec.

(** ** Properties of the client *)

Module ClientSpec.
Import Client.
Import Examples.

Section ActionProperties.

Variable extractContractError : Error -> string.
Variable normalizeEntityID : string -> string.

Abbreviation worldSend := (Client.worldSend extractContractError).
Abbreviation moveTo := (Client.moveTo extractContractError).
Abbreviation spawn := (Client.spawn extractContractError).
Abbreviation throwBall :=
  (Client.throwBall extractContractError normalizeEntityID).

(** Removing an override that was added under a fresh id restores the live
    overrides. *)
Lemma removeOverride_fresh {V} (id : string) (live : Overrides V) :
  id ∉ override_ids live -> removeOverride id live = live.
Proof.
  unfold removeOverride, override_ids.
  induction live as [|[id' u] live IH]; [done|].
  rewrite fmap_cons, not_elem_of_cons. intros [Hne Hfresh].
  rewrite filter_cons_True by (cbn in *; congruence).
  by rewrite IH.
Qed.

Lemma removeOverride_addOverride {V} (id : string) (u : Override V) live :
  id ∉ override_ids live -> removeOverride id (addOverride id u live) = live.
Proof.
  intros Hfresh. unfold addOverride, removeOverride.
  rewrite filter_cons_False by (cbn; intros Hne; by apply Hne).
  by apply removeOverride_fresh.
Qed.

(** The obstruction query reads the state only, and answers whether an
    obstruction entity is at the cell. *)
Lemma isObstructed_spec x y c :
  exists b, isObstructed x y c = (Return b, c, [])
    /\ (b = true <-> obstruction_at c (mkCoord x y)).
Proof.
  unfold isObstructed, gets. eexists. split; [reflexivity|].
  rewrite existsb_exists. unfold obstruction_at.
  split.
  - intros (e & Hin & Hpos). exists e.
    apply list_elem_of_In, elem_of_elements, elem_of_dom in Hin.
    by apply bool_decide_eq_true in Hpos.
  - intros (e & Hobs & Hpos). exists e. split.
    + by apply list_elem_of_In, elem_of_elements, elem_of_dom.
    + by apply bool_decide_eq_true.
Qed.

Lemma isObstructed_true x y c :
  obstruction_at c (mkCoord x y) -> isObstructed x y c = (Return true, c, []).
Proof.
  intros Hobs. destruct (isObstructed_spec x y c) as (b & -> & Hb).
  by rewrite (proj2 Hb Hobs).
Qed.

Lemma isObstructed_false x y c :
  ~ obstruction_at c (mkCoord x y) -> isObstructed x y c = (Return false, c, []).
Proof.
  intros Hobs. destruct (isObstructed_spec x y c) as (b & -> & Hb).
  destruct b; [|done]. by destruct Hobs, Hb; auto.
Qed.

(** Running an action symbolically: unfold the monad, then split on every
    test the code makes. *)
Ltac run :=
  unfold Client.moveTo, Client.spawn, Client.throwBall, Client.worldSend,
    wrapPosition, try_finally, try_catch,
    Position_addOverride, Position_removeOverride, Player_addOverride,
    Player_removeOverride, console_warn, console_error, fastTxExecute,
    awaitStreamValue, uuid, bind, gets, modify, emit, throw, ret in *.

Ltac exec :=
  run; cbn -[removeOverride addOverride Z.rem existsb] in *;
  repeat case_match; simplify_eq;
  cbn -[removeOverride addOverride Z.rem existsb] in *.

(** Turning the boolean tests met on the way into facts. *)
Ltac decided :=
  repeat match goal with
  | H : bool_decide _ = true |- _ => apply bool_decide_eq_true in H
  | H : bool_decide _ = false |- _ => apply bool_decide_eq_false in H
  | H : (_ =? _) = true |- _ => apply Z.eqb_eq in H
  | H : (_ =? _) = false |- _ => apply Z.eqb_neq in H
  | H : negb _ = true |- _ => apply negb_true_iff in H
  | H : negb _ = false |- _ => apply negb_false_iff in H
  | H : is_Some _ |- _ => destruct H as [? H]
  | H1 : ?o = Some ?a, H2 : ?o = Some ?b |- _ =>
      assert (b = a) by congruence; clear H2; subst b
  end.

(** The executor wrapper, case by case. *)
Lemma worldSend_run o func args c :
  worldSend o func args c =
    if fastTxExecutor c then
      match transaction o with
      | Resolved tx => (Return tx, c, [FastTxExecute func args])
      | Rejected e =>
          (Throw e, c,
           [FastTxExecute func args; ConsoleError (extractContractError e)])
      | NeverSettles => (Pending, c, [FastTxExecute func args])
      end
    else (Throw "no signer", c, []).
Proof.
  run. cbn. destruct (fastTxExecutor c); [|done]. cbn.
  by destruct (transaction o).
Qed.


(** C2: whatever way a [moveTo] or [spawn] call settles -- confirmation,
    rejection by the ledger, or an error thrown once the overrides exist --
    every override it created has been removed by then, and the live
    overrides after the call are those before it.  The identifiers [uuid()]
    returns are fresh. *)
Theorem override_hygiene o c x y :
  (positionId o ∉ override_ids (PositionOverrides c) ->
   forall r c' t, moveTo o x y c = (r, c', t) -> r <> Pending ->
     PositionOverrides c' = PositionOverrides c
     /\ PlayerOverrides c' = PlayerOverrides c
     /\ released t = created t)
  /\ (positionId o ∉ override_ids (PositionOverrides c) ->
      playerId o ∉ override_ids (PlayerOverrides c) ->
   forall r c' t, spawn o x y c = (r, c', t) -> r <> Pending ->
     PositionOverrides c' = PositionOverrides c
     /\ PlayerOverrides c' = PlayerOverrides c
     /\ released t = created t).
Proof.
  split.
  - intros Hfresh r c' t Hrun Hsettled.
    destruct c as [pe se fx e2i ents rep pos pls].
    exec; try done; by rewrite removeOverride_addOverride.
  - intros Hfresh Hfresh' r c' t Hrun Hsettled.
    destruct c as [pe se fx e2i ents rep pos pls].
    exec; try done; by rewrite !removeOverride_addOverride.
Qed.

(** C6: a [moveTo] whose target cell is occupied by an obstruction entity
    submits nothing to the ledger and leaves the client state, and with it
    the Replica Store, as it was.  The target cell is the cell the
    coordinates wrap to, which for coordinates inside the map is the cell
    itself. *)
Theorem moveTo_obstructed o c x y :
  (forall wx wy,
     wrapPosition x y c = (Return (wx, wy), c, []) ->
     obstruction_at c (mkCoord wx wy) ->
     exists r c' t, moveTo o x y c = (r, c', t)
       /\ submissions t = [] /\ replica c' = replica c /\ c' = c)
  /\ (forall mapConfig,
     MapConfig (replica c) !! singletonEntity c = Some mapConfig ->
     0 <= x < width mapConfig -> 0 <= y < height mapConfig ->
     obstruction_at c (mkCoord x y) ->
     exists r c' t, moveTo o x y c = (r, c', t)
       /\ submissions t = [] /\ replica c' = replica c /\ c' = c).
Proof.
  assert (Hwrapped : forall wx wy,
     wrapPosition x y c = (Return (wx, wy), c, []) ->
     obstruction_at c (mkCoord wx wy) ->
     exists r c' t, moveTo o x y c = (r, c', t)
       /\ submissions t = [] /\ replica c' = replica c /\ c' = c).
  { intros wx wy Hwrap Hobs.
    destruct (isObstructed_spec wx wy c) as (b & Hrun & Hb).
    apply Hb in Hobs. subst b.
    unfold Client.moveTo, bind at 1, gets at 1.
    destruct (playerEntity c) as [p|]; [|by eexists _, _, _].
    destruct (p =? 0); [by eexists _, _, _|].
    unfold bind at 1. rewrite Hwrap. unfold bind at 1. rewrite Hrun.
    by eexists _, _, _. }
  split; [done|].
  intros mapConfig Hcfg Hx Hy Hobs. apply (Hwrapped x y); [|done].
  unfold wrapPosition, bind, gets, ret. rewrite Hcfg. cbn -[Z.rem].
  rewrite !Z.rem_mod_nonneg by lia.
  rewrite <- (Z.mul_1_l (width mapConfig)) at 1.
  rewrite <- (Z.mul_1_l (height mapConfig)) at 1.
  rewrite !Z_mod_plus_full, !Z.mod_small by lia. done.
Qed.


(** C7, as amended: on a world of width [W] and height [H], [moveTo(W, 0)]
    and [moveTo(0, 0)] wrap to the same target (0, 0), take the same
    decisions, create the same override and end in the same way and state,
    given the same answers of the environment; their traces differ only in
    the submission, which carries the coordinates as they were passed:
    [[W, 0]] for the one, [[0, 0]] for the other. *)
Theorem moveTo_wrapping o c W H :
  MapConfig (replica c) !! singletonEntity c = Some (mkMapConfig W H) ->
  0 < W -> 0 < H ->
  wrapPosition W 0 c = (Return (0, 0), c, [])
  /\ wrapPosition 0 0 c = (Return (0, 0), c, [])
  /\ exists r c' t1 t2,
       moveTo o W 0 c = (r, c', t1) /\ moveTo o 0 0 c = (r, c', t2)
       /\ without_args <$> t1 = without_args <$> t2
       /\ override_creations t1 = override_creations t2
       /\ ((submissions t1 = [] /\ submissions t2 = [])
           \/ (submissions t1 = [FastTxExecute "move" [W; 0]]
               /\ submissions t2 = [FastTxExecute "move" [0; 0]])).
Proof.
  intros Hcfg HW HH.
  assert (HWW : Z.rem (W + W) W = 0).
  { replace (W + W) with (2 * W) by lia. apply Z.rem_mul. lia. }
  assert (HW0 : Z.rem (0 + W) W = 0) by (apply Z.rem_same; lia).
  assert (HH0 : Z.rem (0 + H) H = 0) by (apply Z.rem_same; lia).
  assert (Hwrap1 : wrapPosition W 0 c = (Return (0, 0), c, [])).
  { unfold wrapPosition, bind, gets, ret. rewrite Hcfg. cbn -[Z.rem Z.add].
    by rewrite HWW, HH0. }
  assert (Hwrap2 : wrapPosition 0 0 c = (Return (0, 0), c, [])).
  { unfold wrapPosition, bind, gets, ret. rewrite Hcfg. cbn -[Z.rem Z.add].
    by rewrite HW0, HH0. }
  split; [done|]. split; [done|]. clear Hwrap1 Hwrap2.
  destruct c as [pe se fx e2i ents rep pos pls]. cbn in Hcfg.
  run. cbn -[removeOverride addOverride Z.rem Z.add existsb].
  destruct pe as [p|]; [|by eexists _, _, _, _; repeat split; auto].
  destruct (p =? 0); [by eexists _, _, _, _; repeat split; auto|].
  cbn -[removeOverride addOverride Z.rem Z.add existsb].
  rewrite Hcfg. cbn -[removeOverride addOverride Z.rem Z.add existsb].
  rewrite HWW, HW0, HH0.
  repeat case_match; simplify_eq;
    cbn -[removeOverride addOverride Z.rem Z.add existsb];
    eexists _, _, _, _; (split; [reflexivity|]); (split; [reflexivity|]);
    cbn; auto.
Qed.

(** C4, as amended: a call without a player, a [spawn] of a player already
    spawned and a [throwBall] without an encounter are rejected at once,
    with no override created and nothing submitted.  A [moveTo] or [spawn]
    onto an obstructed cell is not rejected: it logs a warning and returns,
    again with no override and no submission.  Without a signer the
    executor wrapper rejects with nothing submitted, but [moveTo] and
    [spawn] reach it only after creating their overrides, which they remove
    before the rejection propagates. *)
Theorem precondition_violations o c x y :
  ((playerEntity c = None \/ playerEntity c = Some 0) ->
     moveTo o x y c = (Throw "no player", c, [])
     /\ spawn o x y c = (Throw "no player", c, [])
     /\ throwBall o c = (Throw "no player", c, []))
  /\ (forall p, playerEntity c = Some p -> p <> 0 ->
      getPlayer c p = Some true ->
      spawn o x y c = (Throw "already spawned", c, []))
  /\ (forall p, playerEntity c = Some p -> p <> 0 ->
      Encounter (replica c) !! p = None ->
      throwBall o c = (Throw "no encounter", c, []))
  /\ (forall p wx wy, playerEntity c = Some p -> p <> 0 ->
      wrapPosition x y c = (Return (wx, wy), c, []) ->
      obstruction_at c (mkCoord wx wy) ->
      moveTo o x y c =
        (Return tt, c, [ConsoleWarn "cannot move to obstructed space"])
      /\ (getPlayer c p <> Some true ->
          spawn o x y c =
            (Return tt, c, [ConsoleWarn "cannot spawn on obstructed space"])))
  /\ (fastTxExecutor c = false ->
      (forall func args, worldSend o func args c = (Throw "no signer", c, []))
      /\ (forall p wx wy, playerEntity c = Some p -> p <> 0 ->
          wrapPosition x y c = (Return (wx, wy), c, []) ->
          ~ obstruction_at c (mkCoord wx wy) ->
          let position := mkOverride p (mkCoord wx wy) in
          (Encounter (replica c) !! p = None ->
           moveTo o x y c =
             (Throw "no signer",
              with_PositionOverrides
                (fun live => removeOverride (positionId o)
                               (addOverride (positionId o) position live)) c,
              [PositionAddOverride (positionId o) position;
               PositionRemoveOverride (positionId o)]))
          /\ (getPlayer c p <> Some true ->
           spawn o x y c =
             (Throw "no signer",
              with_PlayerOverrides
                (fun live => removeOverride (playerId o)
                               (addOverride (playerId o) (mkOverride p true) live))
                (with_PositionOverrides
                   (fun live => removeOverride (positionId o)
                                  (addOverride (positionId o) position live)) c),
              [PositionAddOverride (positionId o) position;
               PlayerAddOverride (playerId o) (mkOverride p true);
               PositionRemoveOverride (positionId o);
               PlayerRemoveOverride (playerId o)])))).
Proof.
  split_and!.
  - intros [Hp|Hp]; destruct c; cbn in Hp; subst; by exec.
  - intros p Hp Hp0 Hspawned. destruct c; cbn in Hp; subst.
    exec; decided; try done; congruence.
  - intros p Hp Hp0 Hnone. destruct c; cbn in Hp; subst.
    exec; decided; try done; congruence.
  - intros p wx wy Hp Hp0 Hwrap Hobs.
    apply isObstructed_true in Hobs. unfold isObstructed in Hobs.
    destruct c; cbn in Hp; subst.
    split; [|intros Hcan]; exec; decided; try done; congruence.
  - intros Hfx. split.
    { intros func args. rewrite worldSend_run. by rewrite Hfx. }
    intros p wx wy Hp Hp0 Hwrap Hobs position.
    apply isObstructed_false in Hobs. unfold isObstructed in Hobs.
    destruct c; cbn in Hp, Hfx; subst.
    split; [intros Henc|intros Hcan]; exec; decided; try done; congruence.
Qed.
End ActionProperties.

(** A move east across the border of the 3 by 3 world: confirmed, rejected
    by the ledger, and never confirmed (the call stays suspended inside the
    [try] block with its override live). *)
Example moveTo_confirmed :
  moveTo error_text oracle0 3 0 client0
  = (Return tt, client0,
     [PositionAddOverride "position-1" (mkOverride 1 (mkCoord 0 0));
      FastTxExecute "move" [3; 0];
      PositionRemoveOverride "position-1"]).
Proof. reflexivity. Qed.

Example moveTo_rejected :
  moveTo error_text oracle_rejecting 3 0 client0
  = (Throw "reverted", client0,
     [PositionAddOverride "position-1" (mkOverride 1 (mkCoord 0 0));
      FastTxExecute "move" [3; 0];
      ConsoleError "reverted";
      PositionRemoveOverride "position-1"]).
Proof. reflexivity. Qed.

Example moveTo_suspended :
  moveTo error_text oracle_silent 3 0 client0
  = (Pending,
     with_PositionOverrides
       (addOverride "position-1" (mkOverride 1 (mkCoord 0 0))) client0,
     [PositionAddOverride "position-1" (mkOverride 1 (mkCoord 0 0));
      FastTxExecute "move" [3; 0]]).
Proof. reflexivity. Qed.

Example spawn_already_spawned :
  spawn error_text oracle0 0 0
    (with_replica (fun r =>
       mkReplica (MapConfig r) (Obstruction r) (Encounter r) (OwnedBy r)
         (Position r) {[ 1 := true ]}) client0)
  = (Throw "already spawned",
     with_replica (fun r =>
       mkReplica (MapConfig r) (Obstruction r) (Encounter r) (OwnedBy r)
         (Position r) {[ 1 := true ]}) client0, []).
Proof. reflexivity. Qed.

Example spawn_confirmed :
  spawn error_text oracle0 4 5 client0
  = (Return tt, client0,
     [PositionAddOverride "position-1" (mkOverride 1 (mkCoord 1 2));
      PlayerAddOverride "player-1" (mkOverride 1 true);
      FastTxExecute "spawn" [1; 2];
      PositionRemoveOverride "position-1";
      PlayerRemoveOverride "player-1"]).
Proof. reflexivity. Qed.

Lemma override_hygiene_witness :
  PositionOverrides (moveTo error_text oracle0 3 0 client0).1.2
  = PositionOverrides client0
  /\ released (moveTo error_text oracle0 3 0 client0).2
     = created (moveTo error_text oracle0 3 0 client0).2.
Proof.
  destruct (moveTo error_text oracle0 3 0 client0) as [[r c'] t] eqn:Hrun.
  destruct (proj1 (override_hygiene error_text oracle0 client0 3 0)
              (not_elem_of_nil _) r c' t Hrun) as (Hpos & _ & Htrace).
  - vm_compute in Hrun. injection Hrun as <- _ _. discriminate.
  - split; [exact Hpos | exact Htrace].
Defined.

Lemma obstruction_at_example : obstruction_at client0 (mkCoord 1 1).
Proof. exists 2. split; [by eexists | reflexivity]. Qed.

Lemma moveTo_obstructed_witness :
  exists r c' t, moveTo error_text oracle0 1 1 client0 = (r, c', t)
    /\ submissions t = [] /\ replica c' = replica client0 /\ c' = client0.
Proof.
  apply (proj2 (moveTo_obstructed error_text oracle0 client0 1 1)
           (mkMapConfig 3 3)).
  - reflexivity.
  - cbn; lia.
  - cbn; lia.
  - exact obstruction_at_example.
Defined.

Lemma moveTo_wrapping_witness :
  wrapPosition 3 0 client0 = (Return (0, 0), client0, []).
Proof.
  apply (moveTo_wrapping error_text oracle0 client0 3 3);
    [reflexivity | lia | lia].
Defined.

(** The claim C7 as stated fails: on the 3 by 3 world [moveTo(3, 0)] and
    [moveTo(0, 0)] are different calls, the one submitting [move(3, 0)] and
    the other [move(0, 0)]. *)
Lemma moveTo_wrapping_counterexample :
  moveTo error_text oracle0 3 0 client0 <> moveTo error_text oracle0 0 0 client0
  /\ submissions (moveTo error_text oracle0 3 0 client0).2
     = [FastTxExecute "move" [3; 0]]
  /\ submissions (moveTo error_text oracle0 0 0 client0).2
     = [FastTxExecute "move" [0; 0]].
Proof.
  split; [|split; reflexivity].
  intros Heq. apply (f_equal (fun run => submissions run.2)) in Heq.
  vm_compute in Heq. discriminate.
Qed.

Lemma precondition_violations_witness :
  moveTo error_text oracle0 1 1 client_no_player
  = (Throw "no player", client_no_player, []).
Proof.
  apply (proj1 (precondition_violations error_text normalized
                  oracle0 client_no_player 1 1)).
  left. reflexivity.
Defined.

(** The claim C4 as stated fails twice.  A move onto the obstructed cell
    (1, 1) is not rejected: the call returns after a warning.  A move
    without a signer creates its override before the error is raised. *)
Lemma precondition_violation_counterexample :
  moveTo error_text oracle0 1 1 client0
  = (Return tt, client0, [ConsoleWarn "cannot move to obstructed space"])
  /\ moveTo error_text oracle0 0 1 client_no_signer
     = (Throw "no signer", client_no_signer,
        [PositionAddOverride "position-1" (mkOverride 1 (mkCoord 0 1));
         PositionRemoveOverride "position-1"]).
Proof. split; reflexivity. Qed.

End ClientSpec.

(** ** Further properties of the contract *)

Module EncounterSystemMore.
Import EncounterSystem.
Import Invariants.
Import Examples.

Section MoreEncounterProperties.

Variable keccak256 : list Z -> Z.
Variable addressToEntityKey : address -> bytes32.

Abbreviation throwBall := (EncounterSystem.throwBall keccak256 addressToEntityKey).
Abbreviation flee := (EncounterSystem.flee addressToEntityKey).
Abbreviation attack := (EncounterSystem.attack addressToEntityKey).

(** [throwBall], every case. *)
Lemma throwBall_run ctx s :
  let player := addressToEntityKey (msgSender ctx) in
  let record := default (0, []) (Encounter s !! player) in
  throwBall ctx s =
    if record.1 =? 0 then Fail (Revert "not in this encounter") else
    match record.2 with
    | [] => Fail (Panic PANIC_INDEX)
    | monster :: _ =>
        if Z.even (keccak256 [player; monster; record.1; block_difficulty ctx])
        then Ok tt (with_Encounter (delete player)
                      (with_OwnedBy <[monster := player]> s))
        else if 2 <? record.1
        then Ok tt (with_Monster (delete monster)
                      (with_Encounter (delete player) s))
        else if record.1 + 1 <=? uint256_max
        then Ok tt (with_Encounter <[player := (record.1 + 1, record.2)]> s)
        else Fail (Panic PANIC_ARITHMETIC)
    end.
Proof.
  intros player record.
  unfold EncounterSystem.throwBall, bind, Encounter_get, gets.
  change (addressToEntityKey (msgSender ctx)) with player. fold record.
  destruct record as [actionCount monsters] eqn:Hrecord. cbn [fst snd].
  destruct (actionCount =? 0); [done|]. cbn -[Z.modulo Z.add uint256_max].
  destruct monsters as [|monster rest]; [done|].
  cbn -[Z.modulo Z.add uint256_max]. unfold abi_encode.
  rewrite Zmod_even.
  destruct (Z.even _); [done|]. cbn -[Z.add uint256_max].
  destruct (2 <? actionCount); [done|].
  unfold checked_add.
  destruct (actionCount + 1 <=? uint256_max); [|done].
  unfold Encounter_setActionCount, modify, ret, with_Encounter.
  subst record. by rewrite Hrecord.
Qed.

(** [attack], every case. *)
Lemma attack_run ctx s :
  let player := addressToEntityKey (msgSender ctx) in
  attack ctx s =
    match (default (0, []) (Encounter s !! player)).2 with
    | [] => Fail (Panic PANIC_INDEX)
    | monster :: _ =>
        let playerDamage := default 0 (Strength s !! player) in
        let monsterHealth := default 0 (Health s !! monster) in
        if playerDamage <=? monsterHealth
        then Ok tt (with_Health <[monster := monsterHealth - playerDamage]> s)
        else Fail (Panic PANIC_ARITHMETIC)
    end.
Proof.
  intros player.
  unfold EncounterSystem.attack, bind, Encounter_get, gets, Strength_get,
    Health_get, checked_sub.
  change (addressToEntityKey (msgSender ctx)) with player.
  destruct (default (0, []) (Encounter s !! player)) as [actionCount monsters].
  cbn [snd]. destruct monsters as [|monster rest]; [done|].
  cbn -[Z.sub]. by destruct (_ <=? _).
Qed.

(** X1: whatever its outcome, [throwBall] leaves the health and strength
    tables alone, and with them every other player's encounter record and
    the ownership and monster record of every entity but the first monster
    of the caller's encounter. *)
Theorem throwBall_frame ctx s :
  let player := addressToEntityKey (msgSender ctx) in
  let target := head (default (0, []) (Encounter s !! player)).2 in
  let s' := (call (throwBall ctx) s).1 in
  Health s' = Health s
  /\ Strength s' = Strength s
  /\ (forall other, other <> player ->
      Encounter s' !! other = Encounter s !! other)
  /\ (forall key, target <> Some key ->
      OwnedBy s' !! key = OwnedBy s !! key
      /\ Monster s' !! key = Monster s !! key).
Proof.
  intros player target s'. subst s' target. unfold call.
  rewrite throwBall_run. cbn zeta.
  change (addressToEntityKey (msgSender ctx)) with player.
  destruct (default (0, []) (Encounter s !! player)) as [actionCount monsters].
  cbn [fst snd].
  destruct (actionCount =? 0); [done|].
  destruct monsters as [|monster rest]; [done|].
  destruct (Z.even _); cbn.
  { repeat split; try done.
    - intros other Hother. by rewrite lookup_delete_ne.
    - rewrite lookup_insert_ne; [done|congruence]. }
  destruct (2 <? actionCount); cbn.
  { repeat split; try done.
    - intros other Hother. by rewrite lookup_delete_ne.
    - rewrite lookup_delete_ne; [done|congruence]. }
  destruct (actionCount + 1 <=? uint256_max); cbn; [|done].
  repeat split; try done.
  intros other Hother. by rewrite lookup_insert_ne.
Qed.

(** X2: an encounter record with a non-zero [actionCount] and no monster
    makes [throwBall] abort on the read of [monsters[0]], and nothing
    changes. *)
Theorem throwBall_empty_monsters ctx s actionCount :
  let player := addressToEntityKey (msgSender ctx) in
  Encounter s !! player = Some (actionCount, []) ->
  actionCount <> 0 ->
  call (throwBall ctx) s = (s, Failed (Panic PANIC_INDEX)).
Proof.
  intros player Hrec Hac. unfold call. rewrite throwBall_run. cbn zeta.
  change (addressToEntityKey (msgSender ctx)) with player.
  rewrite Hrec. cbn. by rewrite (proj2 (Z.eqb_neq _ _) Hac).
Qed.

(** X3: none of [throwBall], [flee] and [attack] creates an encounter
    record or alters the monsters of one: every record found after a call
    was there before, with the same monsters and an [actionCount] that is
    unchanged or one higher. *)
Theorem encounter_records_kept ctx s :
  records_kept s (call (throwBall ctx) s).1
  /\ records_kept s (call (flee ctx) s).1
  /\ records_kept s (call (attack ctx) s).1.
Proof.
  assert (Hrefl : records_kept s s).
  { intros p e' He'. exists e'. repeat split; (done || lia). }
  set (player := addressToEntityKey (msgSender ctx)).
  split; [|split].
  - unfold call. rewrite throwBall_run. cbn zeta. fold player.
    destruct (Encounter s !! player) as [[actionCount monsters]|] eqn:Hrec;
      cbn [default from_option id fst snd]; [|exact Hrefl].
    destruct (actionCount =? 0); [exact Hrefl|].
    destruct monsters as [|monster rest]; [exact Hrefl|].
    assert (Hdel : records_kept s (with_Encounter (delete player) s)).
    { intros p e'. cbn. intros He'. exists e'.
      apply lookup_delete_Some in He' as [_ He'].
      repeat split; (done || lia). }
    destruct (Z.even _); [exact Hdel|].
    destruct (2 <? actionCount); [exact Hdel|].
    destruct (actionCount + 1 <=? uint256_max); [|exact Hrefl].
    intros p e'. cbn -[Z.add]. intros He'.
    destruct (decide (p = player)) as [->|Hne].
    + rewrite lookup_insert_eq in He'. injection He' as <-.
      exists (actionCount, monster :: rest). cbn -[Z.add].
      repeat split; (done || lia).
    + rewrite lookup_insert_ne in He' by done.
      exists e'. repeat split; (done || lia).
  - intros p e'. cbn. fold player. intros He'. exists e'.
    apply lookup_delete_Some in He' as [_ He'].
    repeat split; (done || lia).
  - unfold call. rewrite attack_run. cbn zeta. fold player.
    destruct (default (0, []) (Encounter s !! player)).2; [exact Hrefl|].
    destruct (_ <=? _); exact Hrefl.
Qed.

(** X4: if no encounter record has an [actionCount] above 3, none has after
    a [throwBall], a [flee] or an [attack]. *)
Theorem actionCount_stays_bounded ctx s :
  actionCount_bounded s ->
  actionCount_bounded (call (throwBall ctx) s).1
  /\ actionCount_bounded (call (flee ctx) s).1
  /\ actionCount_bounded (call (attack ctx) s).1.
Proof.
  intros Hbound.
  set (player := addressToEntityKey (msgSender ctx)).
  assert (Hdel : actionCount_bounded (with_Encounter (delete player) s)).
  { intros p e. cbn. intros He.
    apply lookup_delete_Some in He as [_ He]. by apply (Hbound p). }
  split; [|split].
  - unfold call. rewrite throwBall_run. cbn zeta. fold player.
    destruct (default (0, []) (Encounter s !! player))
      as [actionCount monsters]. cbn [fst snd].
    destruct (actionCount =? 0); [exact Hbound|].
    destruct monsters as [|monster rest]; [exact Hbound|].
    destruct (Z.even _).
    { intros p e. cbn. intros He.
      apply lookup_delete_Some in He as [_ He]. by apply (Hbound p). }
    destruct (Z.ltb_spec 2 actionCount).
    { intros p e. cbn. intros He.
      apply lookup_delete_Some in He as [_ He]. by apply (Hbound p). }
    destruct (actionCount + 1 <=? uint256_max); [|exact Hbound].
    intros p e. cbn -[Z.add]. intros He.
    destruct (decide (p = player)) as [->|Hne].
    + rewrite lookup_insert_eq in He. injection He as <-. cbn -[Z.add]. lia.
    + rewrite lookup_insert_ne in He by done. by apply (Hbound p).
  - exact Hdel.
  - unfold call. rewrite attack_run. cbn zeta. fold player.
    destruct (default (0, []) (Encounter s !! player)).2; [exact Hbound|].
    destruct (_ <=? _); exact Hbound.
Qed.

(** One throw of an engaged player ends the encounter or counts one more
    throw, and a throw without a record changes nothing. *)
Lemma throwBall_step ctx s actionCount monsters :
  let player := addressToEntityKey (msgSender ctx) in
  Encounter s !! player = Some (actionCount, monsters) ->
  1 <= actionCount -> monsters <> [] ->
  let s' := (call (throwBall ctx) s).1 in
  Encounter s' !! player = None
  \/ (actionCount <= 2
      /\ Encounter s' !! player = Some (actionCount + 1, monsters)).
Proof.
  intros player Hrec Hac Hmonsters s'. subst s'. unfold call.
  rewrite throwBall_run. cbn zeta. fold player. rewrite Hrec.
  cbn [default from_option id fst snd].
  destruct (Z.eqb_spec actionCount 0); [lia|].
  destruct monsters as [|monster rest]; [done|].
  destruct (Z.even _).
  { left. cbn. apply lookup_delete_eq. }
  destruct (Z.ltb_spec 2 actionCount).
  { left. cbn. apply lookup_delete_eq. }
  destruct (Z.leb_spec (actionCount + 1) uint256_max).
  - right. split; [lia|]. cbn -[Z.add]. apply lookup_insert_eq.
  - unfold uint256_max in *. lia.
Qed.

Lemma throwBall_without_record ctx s :
  Encounter s !! addressToEntityKey (msgSender ctx) = None ->
  (call (throwBall ctx) s).1 = s.
Proof.
  intros Hnone. unfold call. rewrite throwBall_run. cbn zeta.
  by rewrite Hnone.
Qed.

(** X5: an encounter never outlasts three throws.  Whatever the values the
    hash yields in the three blocks, after three [throwBall] calls of an
    engaged player the player has no encounter record. *)
Theorem three_throws_end_encounter ctx1 ctx2 ctx3 s actionCount monsters :
  let player := addressToEntityKey (msgSender ctx1) in
  msgSender ctx2 = msgSender ctx1 ->
  msgSender ctx3 = msgSender ctx1 ->
  Encounter s !! player = Some (actionCount, monsters) ->
  1 <= actionCount -> monsters <> [] ->
  let s1 := (call (throwBall ctx1) s).1 in
  let s2 := (call (throwBall ctx2) s1).1 in
  let s3 := (call (throwBall ctx3) s2).1 in
  NoEncounter s3 player.
Proof.
  intros player Hsender2 Hsender3 Hrec Hac Hmonsters s1 s2 s3.
  unfold NoEncounter.
  assert (Hgone : forall ctx s0,
    msgSender ctx = msgSender ctx1 ->
    Encounter s0 !! player = None ->
    Encounter (call (throwBall ctx) s0).1 !! player = None).
  { intros ctx s0 Hsender Hnone. rewrite throwBall_without_record; [done|].
    by rewrite Hsender. }
  destruct (throwBall_step ctx1 s actionCount monsters Hrec Hac Hmonsters)
    as [Hnone1|[Hle1 Hrec1]]; fold s1 in Hnone1 || fold s1 in Hrec1.
  { subst s3 s2. by apply Hgone; [|apply Hgone]. }
  assert (Hstep2 := throwBall_step ctx2 s1 (actionCount + 1) monsters).
  cbn zeta in Hstep2. rewrite Hsender2 in Hstep2. fold player s2 in Hstep2.
  destruct (Hstep2 Hrec1 ltac:(lia) Hmonsters) as [Hnone2|[Hle2 Hrec2]].
  { subst s3. by apply Hgone. }
  assert (Hstep3 := throwBall_step ctx3 s2 (actionCount + 1 + 1) monsters).
  cbn zeta in Hstep3. rewrite Hsender3 in Hstep3. fold player s3 in Hstep3.
  destruct (Hstep3 Hrec2 ltac:(lia) Hmonsters) as [Hnone3|[Hle3 _]];
    [done | lia].
Qed.

(** X6: whatever its outcome, [attack] changes nothing but the health of
    the first monster of the caller's encounter: the encounter record and
    its [actionCount], the monster records, the ownership and the strength
    values and every other health are as before.  An attack is no turn and
    never ends an encounter or removes a monster, also at health zero. *)
Theorem attack_frame ctx s :
  let player := addressToEntityKey (msgSender ctx) in
  let target := head (default (0, []) (Encounter s !! player)).2 in
  let s' := (call (attack ctx) s).1 in
  Encounter s' = Encounter s
  /\ Monster s' = Monster s
  /\ OwnedBy s' = OwnedBy s
  /\ Strength s' = Strength s
  /\ (forall key, target <> Some key -> Health s' !! key = Health s !! key).
Proof.
  intros player target s'. subst s' target. unfold call.
  rewrite attack_run. cbn zeta. fold player.
  destruct (default (0, []) (Encounter s !! player)).2 as [|monster rest];
    [done|].
  destruct (_ <=? _); [|done]. cbn.
  repeat split. intros key Hkey. rewrite lookup_insert_ne; [done|congruence].
Qed.

(** X7: [attack] keeps the health table within [uint32]: when every health
    is in range and no strength is negative, every health is in range after
    the call, so the checked subtraction never stores a wrapped value. *)
Theorem attack_keeps_uint32 ctx s :
  uint32_values (Health s) ->
  (forall key d, Strength s !! key = Some d -> 0 <= d) ->
  uint32_values (Health (call (attack ctx) s).1).
Proof.
  intros Hhealth Hstrength. unfold call. rewrite attack_run. cbn zeta.
  set (player := addressToEntityKey (msgSender ctx)).
  destruct (default (0, []) (Encounter s !! player)).2 as [|monster rest];
    [done|].
  destruct (Z.leb_spec (default 0 (Strength s !! player))
              (default 0 (Health s !! monster))) as [Hle|]; [|done].
  cbn -[Z.sub Z.pow]. intros key v Hv.
  destruct (decide (key = monster)) as [->|Hne].
  - rewrite lookup_insert_eq in Hv. injection Hv as <-.
    assert (0 <= default 0 (Strength s !! player)).
    { destruct (Strength s !! player) as [d|] eqn:Hd; cbn; [|lia].
      by apply (Hstrength player). }
    assert (0 <= default 0 (Health s !! monster) < 2 ^ 32).
    { destruct (Health s !! monster) as [h|] eqn:Hh; cbn -[Z.pow]; [|lia].
      by apply (Hhealth monster). }
    lia.
  - rewrite lookup_insert_ne in Hv by done. by apply (Hhealth key).
Qed.

(** [n] attacks in a row, as long as the health lasts. *)
Lemma attacks_run ctx s actionCount monster rest (n : nat) :
  let player := addressToEntityKey (msgSender ctx) in
  let d := default 0 (Strength s !! player) in
  let h := default 0 (Health s !! monster) in
  Encounter s !! player = Some (actionCount, monster :: rest) ->
  0 <= d -> Z.of_nat n * d <= h ->
  let sn := Nat.iter n (fun s0 => (call (attack ctx) s0).1) s in
  Encounter sn = Encounter s
  /\ Strength sn = Strength s
  /\ default 0 (Health sn !! monster) = h - Z.of_nat n * d.
Proof.
  intros player d h Hrec Hd. induction n as [|n IH]; intros Hn sn.
  { subst sn. cbn. repeat split. lia. }
  destruct IH as (HEnc & HStr & HHealth); [lia|].
  subst sn. rewrite !Nat.iter_succ.
  set (sn := Nat.iter n (fun s0 => (call (attack ctx) s0).1) s) in *.
  unfold call. rewrite attack_run. cbn zeta. fold player.
  rewrite HEnc, Hrec, HStr. cbn [default from_option id snd]. fold d.
  rewrite HHealth.
  destruct (Z.leb_spec d (h - Z.of_nat n * d)); [|lia].
  cbn -[Z.sub Z.mul Z.of_nat]. rewrite lookup_insert_eq.
  repeat split; try done. cbn -[Z.sub Z.mul Z.of_nat]. lia.
Qed.

(** X8: repeated attacks wear a monster down to the remainder of its health
    by the attacker's strength and no further: after [health / strength]
    attacks the health is [health mod strength], and from then on every
    attack aborts on the subtraction and changes nothing. *)
Theorem attacks_leave_remainder ctx s actionCount monster rest :
  let player := addressToEntityKey (msgSender ctx) in
  let d := default 0 (Strength s !! player) in
  let h := default 0 (Health s !! monster) in
  Encounter s !! player = Some (actionCount, monster :: rest) ->
  0 < d -> 0 <= h ->
  let worn := Nat.iter (Z.to_nat (h / d)) (fun s0 => (call (attack ctx) s0).1) s in
  default 0 (Health worn !! monster) = h mod d
  /\ call (attack ctx) worn = (worn, Failed (Panic PANIC_ARITHMETIC)).
Proof.
  intros player d h Hrec Hd Hh worn.
  assert (Hq : 0 <= h / d) by (apply Z.div_pos; lia).
  assert (Hle : Z.of_nat (Z.to_nat (h / d)) * d <= h).
  { rewrite Z2Nat.id by done. rewrite Z.mul_comm. apply Z.mul_div_le. lia. }
  destruct (attacks_run ctx s actionCount monster rest (Z.to_nat (h / d))
              Hrec ltac:(fold player d; lia) Hle) as (HEnc & HStr & HHealth).
  fold player d h worn in HEnc, HStr, HHealth.
  assert (Hrem : default 0 (Health worn !! monster) = h mod d).
  { rewrite HHealth, Z2Nat.id by done. rewrite Z.mod_eq by lia. lia. }
  split; [done|].
  unfold call. rewrite attack_run. cbn zeta. fold player.
  rewrite HEnc, Hrec, HStr. cbn [default from_option id snd]. fold d.
  rewrite Hrem.
  assert (0 <= h mod d < d) by (apply Z.mod_pos_bound; lia).
  by destruct (Z.leb_spec d (h mod d)); [lia|].
Qed.

(** X9: after [flee] the caller can neither throw nor attack: [throwBall]
    fails with its not-in-encounter error and [attack] aborts on the read of
    [monsters[0]], and neither changes the store. *)
Theorem flee_then_act ctx ctx' s :
  msgSender ctx' = msgSender ctx ->
  let s1 := (call (flee ctx) s).1 in
  call (throwBall ctx') s1 = (s1, Failed (Revert "not in this encounter"))
  /\ call (attack ctx') s1 = (s1, Failed (Panic PANIC_INDEX)).
Proof.
  intros Hsender s1.
  assert (Hnone : Encounter s1 !! addressToEntityKey (msgSender ctx') = None).
  { rewrite Hsender. subst s1. cbn. apply lookup_delete_eq. }
  unfold call. rewrite throwBall_run, attack_run. cbn zeta.
  by rewrite Hnone.
Qed.

End MoreEncounterProperties.

Lemma throwBall_frame_witness :
  Health (call (throwBall sum_hash key_of even_block) (store_of 1 3 5)).1
  = Health (store_of 1 3 5)
  /\ Encounter (call (throwBall sum_hash key_of even_block) (store_of 1 3 5)).1
       !! 8 = None
  /\ Monster (call (throwBall sum_hash key_of even_block) (store_of 1 3 5)).1
       !! 101 = None.
Proof.
  destruct (throwBall_frame sum_hash key_of even_block (store_of 1 3 5))
    as (HHealth & _ & HEnc & Hkeys).
  split; [exact HHealth|]. split.
  - rewrite (HEnc 8) by (vm_compute; discriminate). reflexivity.
  - rewrite (proj2 (Hkeys 101 ltac:(vm_compute; discriminate))). reflexivity.
Defined.

Lemma throwBall_empty_monsters_witness :
  call (throwBall sum_hash key_of odd_block) store_without_monsters
  = (store_without_monsters, Failed (Panic PANIC_INDEX)).
Proof.
  apply (throwBall_empty_monsters sum_hash key_of odd_block
           store_without_monsters 1); [reflexivity | lia].
Defined.

Lemma actionCount_bounded_example : actionCount_bounded (store_of 2 3 5).
Proof.
  intros player e He.
  change (Encounter (store_of 2 3 5))
    with ({[ 7 := (2, [100]) ]} : gmap Z (Z * list Z)) in He.
  apply lookup_singleton_Some in He as [_ <-]. cbn. lia.
Qed.

Lemma actionCount_stays_bounded_witness :
  actionCount_bounded
    (call (throwBall sum_hash key_of odd_block) (store_of 2 3 5)).1.
Proof.
  apply (actionCount_stays_bounded sum_hash key_of odd_block (store_of 2 3 5)).
  exact actionCount_bounded_example.
Defined.

Lemma three_throws_end_encounter_witness :
  NoEncounter
    (call (throwBall sum_hash key_of odd_block)
       (call (throwBall sum_hash key_of odd_block)
          (call (throwBall sum_hash key_of odd_block) (store_of 1 3 5)).1).1).1
    7.
Proof.
  apply (three_throws_end_encounter sum_hash key_of
           odd_block odd_block odd_block (store_of 1 3 5) 1 [100]);
    [reflexivity | reflexivity | reflexivity | lia | discriminate].
Defined.

Lemma attack_frame_witness :
  Encounter (call (attack key_of odd_block) (store_of 1 9 5)).1
  = Encounter (store_of 1 9 5)
  /\ Health (call (attack key_of odd_block) (store_of 1 9 5)).1 !! 101 = None.
Proof.
  destruct (attack_frame key_of odd_block (store_of 1 9 5))
    as (HEnc & _ & _ & _ & HHealth).
  split; [exact HEnc|].
  rewrite (HHealth 101) by (vm_compute; discriminate). reflexivity.
Defined.

Lemma uint32_values_example : uint32_values (Health (store_of 1 9 5)).
Proof.
  intros key v Hv.
  change (Health (store_of 1 9 5)) with ({[ 100 := 9 ]} : gmap Z Z) in Hv.
  apply lookup_singleton_Some in Hv as [_ <-]. lia.
Qed.

Lemma strength_example key d :
  Strength (store_of 1 9 5) !! key = Some d -> 0 <= d.
Proof.
  intros Hd.
  change (Strength (store_of 1 9 5)) with ({[ 7 := 5 ]} : gmap Z Z) in Hd.
  apply lookup_singleton_Some in Hd as [_ <-]. lia.
Qed.

Lemma attack_keeps_uint32_witness :
  uint32_values (Health (call (attack key_of odd_block) (store_of 1 9 5)).1).
Proof.
  apply (attack_keeps_uint32 key_of odd_block (store_of 1 9 5)).
  - exact uint32_values_example.
  - exact strength_example.
Defined.

Lemma attacks_leave_remainder_witness :
  default 0
    (Health (call (attack key_of odd_block) (store_of 1 9 5)).1 !! 100) = 4.
Proof.
  refine (proj1 (attacks_leave_remainder key_of odd_block (store_of 1 9 5)
                   1 100 [] _ _ _));
    [reflexivity | vm_compute; reflexivity | vm_compute; discriminate].
Defined.

Lemma flee_then_act_witness :
  call (attack key_of even_block)
    (call (flee key_of odd_block) (store_of 1 9 5)).1
  = ((call (flee key_of odd_block) (store_of 1 9 5)).1,
     Failed (Panic PANIC_INDEX)).
Proof.
  apply (flee_then_act sum_hash key_of odd_block even_block (store_of 1 9 5)).
  reflexivity.
Defined.

End EncounterSystemMore.

(** ** Further properties of the client *)

Module ClientMore.
Import Client.
Import Views.
Import Examples.
Import MoreExamples.

Section MoreActionProperties.

Variable extractContractError : Error -> string.
Variable normalizeEntityID : string -> string.

Abbreviation worldSend := (Client.worldSend extractContractError).
Abbreviation moveTo := (Client.moveTo extractContractError).
Abbreviation moveBy := (Client.moveBy extractContractError).
Abbreviation spawn := (Client.spawn extractContractError).
Abbreviation throwBall :=
  (Client.throwBall extractContractError normalizeEntityID).
Abbreviation attack := (Client.attack extractContractError).
Abbreviation fleeEncounter := (Client.fleeEncounter extractContractError).
Abbreviation api := (Views.api extractContractError normalizeEntityID).
Abbreviation submitted := (Views.submitted extractContractError).

Ltac unfold_monad :=
  unfold try_finally, try_catch, Position_addOverride,
    Position_removeOverride, Player_addOverride, Player_removeOverride,
    console_warn, console_error, fastTxExecute, awaitStreamValue, uuid,
    bind, gets, modify, emit, throw, ret.

Ltac reduce :=
  cbn -[removeOverride addOverride Z.rem existsb obstructed hasCaught
        overriddenValue].

(** *** The verbs, case by case *)

Lemma submit_run o func args c :
  bind (worldSend o func args) (fun tx => awaitStreamValue o tx) c
  = submitted o func args c.
Proof.
  unfold Client.worldSend, Views.submitted. unfold_monad.
  destruct (fastTxExecutor c); [|done]. reduce.
  destruct (transaction o); [|done|done].
  by destruct (confirmation o).
Qed.

Lemma attack_submits o c : attack o c = submitted o "attack" [] c.
Proof. apply submit_run. Qed.

Lemma fleeEncounter_submits o c : fleeEncounter o c = submitted o "flee" [] c.
Proof. apply submit_run. Qed.

Lemma moveTo_run o x y c :
  moveTo o x y c =
    match playerEntity c with
    | None => (Throw "no player", c, [])
    | Some p =>
        if p =? 0 then (Throw "no player", c, []) else
        match MapConfig (replica c) !! singletonEntity c with
        | None => (Throw "mapConfig no yet loaded or initialized", c, [])
        | Some mapConfig =>
            let wx := Z.rem (x + width mapConfig) (width mapConfig) in
            let wy := Z.rem (y + height mapConfig) (height mapConfig) in
            if obstructed c wx wy
            then (Return tt, c, [ConsoleWarn "cannot move to obstructed space"])
            else if bool_decide (is_Some (Encounter (replica c) !! p))
            then (Return tt, c, [ConsoleWarn "cannot move while in encounter"])
            else
              let position := mkOverride p (mkCoord wx wy) in
              guarded [PositionAddOverride (positionId o) position]
                (with_PositionOverrides (removeOverride (positionId o)))
                [PositionRemoveOverride (positionId o)]
                (submitted o "move" [x; y]
                   (with_PositionOverrides
                      (addOverride (positionId o) position) c))
        end
    end.
Proof.
  unfold Client.moveTo, Client.worldSend, wrapPosition, isObstructed,
    Views.submitted, guarded.
  unfold_monad. fold (obstructed c). reduce.
  destruct (playerEntity c) as [p|]; [|done].
  destruct (p =? 0); [done|]. reduce.
  destruct (MapConfig (replica c) !! singletonEntity c) as [mapConfig|];
    [|done]. reduce.
  change (existsb _ (elements (dom (Obstruction (replica c)))))
    with (obstructed c (Z.rem (x + width mapConfig) (width mapConfig))
            (Z.rem (y + height mapConfig) (height mapConfig))).
  destruct (obstructed c _ _); [done|]. reduce.
  destruct (bool_decide _); [done|]. reduce.
  destruct (fastTxExecutor c); [|done]. reduce.
  destruct (transaction o); [|done|done]. reduce.
  by destruct (confirmation o).
Qed.

Lemma spawn_run o x y c :
  spawn o x y c =
    match playerEntity c with
    | None => (Throw "no player", c, [])
    | Some p =>
        if p =? 0 then (Throw "no player", c, []) else
        if bool_decide (getPlayer c p = Some true)
        then (Throw "already spawned", c, [])
        else
        match MapConfig (replica c) !! singletonEntity c with
        | None => (Throw "mapConfig no yet loaded or initialized", c, [])
        | Some mapConfig =>
            let wx := Z.rem (x + width mapConfig) (width mapConfig) in
            let wy := Z.rem (y + height mapConfig) (height mapConfig) in
            if obstructed c wx wy
            then (Return tt, c, [ConsoleWarn "cannot spawn on obstructed space"])
            else
              let position := mkOverride p (mkCoord wx wy) in
              let player := mkOverride p true in
              guarded
                [PositionAddOverride (positionId o) position;
                 PlayerAddOverride (playerId o) player]
                (fun c' =>
                   with_PlayerOverrides (removeOverride (playerId o))
                     (with_PositionOverrides
                        (removeOverride (positionId o)) c'))
                [PositionRemoveOverride (positionId o);
                 PlayerRemoveOverride (playerId o)]
                (submitted o "spawn" [wx; wy]
                   (with_PlayerOverrides (addOverride (playerId o) player)
                      (with_PositionOverrides
                         (addOverride (positionId o) position) c)))
        end
    end.
Proof.
  unfold Client.spawn, Client.worldSend, wrapPosition, isObstructed,
    Views.submitted, guarded.
  unfold_monad. reduce.
  destruct (playerEntity c) as [p|]; [|done].
  destruct (p =? 0); [done|]. reduce.
  destruct (bool_decide _); [done|]. reduce.
  destruct (MapConfig (replica c) !! singletonEntity c) as [mapConfig|];
    [|done]. reduce.
  change (existsb _ (elements (dom (Obstruction (replica c)))))
    with (obstructed c (Z.rem (x + width mapConfig) (width mapConfig))
            (Z.rem (y + height mapConfig) (height mapConfig))).
  destruct (obstructed c _ _); [done|]. reduce.
  destruct (fastTxExecutor c); [|done]. reduce.
  destruct (transaction o); [|done|done]. reduce.
  by destruct (confirmation o).
Qed.

Lemma moveBy_run o deltaX deltaY c :
  moveBy o deltaX deltaY c =
    match playerEntity c with
    | None => (Throw "no player", c, [])
    | Some p =>
        if p =? 0 then (Throw "no player", c, []) else
        match getPosition c p with
        | None =>
            (Return tt, c,
             [ConsoleWarn
                "cannot moveBy without a player position, not yet spawned?"])
        | Some position =>
            moveTo o (coord_x position + deltaX) (coord_y position + deltaY) c
        end
    end.
Proof.
  unfold Client.moveBy. unfold bind at 1, gets at 1.
  destruct (playerEntity c) as [p|]; [|done].
  destruct (p =? 0); [done|].
  unfold bind, gets.
  destruct (getPosition c p) as [position|]; [|done].
  destruct (Client.moveTo _ _ _ _ _) as [[r c'] t]. by destruct r.
Qed.

Lemma throwBall_cases o c :
  throwBall o c =
    match playerEntity c with
    | None => (Throw "no player", c, [])
    | Some p =>
        if p =? 0 then (Throw "no player", c, []) else
        match Encounter (replica c) !! p with
        | None => (Throw "no encounter", c, [])
        | Some encounter =>
            match submitted o "throwBall" [] c with
            | (Return _, c', t) =>
                (Return
                   (if hasCaught normalizeEntityID c' p encounter then caught
                    else if bool_decide (is_Some (Encounter (replica c') !! p))
                    then miss else fled),
                 c', t)
            | (Throw e, c', t) => (Throw e, c', t)
            | (Pending, c', t) => (Pending, c', t)
            end
        end
    end.
Proof.
  unfold Client.throwBall, Client.worldSend, Views.submitted.
  unfold_monad. reduce.
  destruct (playerEntity c) as [p|]; [|done].
  destruct (p =? 0); [done|]. reduce.
  destruct (Encounter (replica c) !! p) as [encounter|]; [|done]. reduce.
  destruct (fastTxExecutor c); [|done]. reduce.
  destruct (transaction o); [|done|done]. reduce.
  destruct (confirmation o); [|done|done]. reduce.
  destruct (hasCaught _ _ _ _); [done|]. reduce.
  by destruct (bool_decide _).
Qed.


Lemma wrapPosition_run x y c :
  wrapPosition x y c =
    match MapConfig (replica c) !! singletonEntity c with
    | None => (Throw "mapConfig no yet loaded or initialized", c, [])
    | Some mapConfig =>
        (Return (Z.rem (x + width mapConfig) (width mapConfig),
                 Z.rem (y + height mapConfig) (height mapConfig)), c, [])
    end.
Proof.
  unfold wrapPosition. unfold_monad.
  by destruct (MapConfig (replica c) !! singletonEntity c).
Qed.

Lemma rem_wrap a b : 0 < b -> - b <= a -> Z.rem (a + b) b = a mod b.
Proof.
  intros Hb Ha. rewrite Z.rem_mod_nonneg by lia.
  rewrite <- (Z.mul_1_l b) at 1. by rewrite Z_mod_plus_full.
Qed.

(** *** Wrapping *)


(** X11: the wrap reaches one map size below zero and no further: a
    coordinate below [- width] comes out as minus the residue of its
    opposite, which is negative, so outside the map, unless the width
    divides it. *)
Theorem wrapPosition_below_range c x y mapConfig :
  MapConfig (replica c) !! singletonEntity c = Some mapConfig ->
  0 < width mapConfig ->
  x < - width mapConfig ->
  exists wx wy,
    wrapPosition x y c = (Return (wx, wy), c, [])
    /\ wx = - ((- x) mod width mapConfig)
    /\ - width mapConfig < wx <= 0.
Proof.
  intros Hcfg HW Hx. rewrite wrapPosition_run, Hcfg.
  eexists _, _. split; [reflexivity|].
  set (W := width mapConfig) in *.
  assert (Hrem : Z.rem (x + W) W = - ((- x) mod W)).
  { replace (x + W) with (- (- x - W)) by lia.
    rewrite Z.rem_opp_l by lia.
    rewrite Z.rem_mod_nonneg by lia.
    replace (- x - W) with (- x + (-1) * W) by lia.
    by rewrite Z_mod_plus_full. }
  split; [done|]. rewrite Hrem.
  assert (0 <= (- x) mod W < W) by (apply Z.mod_pos_bound; lia). lia.
Qed.

(** X12: without a map configuration a [moveTo] and a [spawn] of a player
    who may spawn are rejected with the map error, with no override and no
    submission; a [spawn] of a player already spawned is rejected for that
    reason first. *)
Theorem mapConfig_missing o c x y p :
  playerEntity c = Some p -> p <> 0 ->
  MapConfig (replica c) !! singletonEntity c = None ->
  let not_loaded := "mapConfig no yet loaded or initialized" in
  wrapPosition x y c = (Throw not_loaded, c, [])
  /\ moveTo o x y c = (Throw not_loaded, c, [])
  /\ (getPlayer c p <> Some true -> spawn o x y c = (Throw not_loaded, c, []))
  /\ (getPlayer c p = Some true ->
      spawn o x y c = (Throw "already spawned", c, [])).
Proof.
  intros Hp Hp0 Hcfg not_loaded.
  rewrite wrapPosition_run, moveTo_run, spawn_run, Hp, Hcfg.
  rewrite (proj2 (Z.eqb_neq _ _) Hp0).
  repeat split.
  - intros Hcan. by rewrite bool_decide_eq_false_2.
  - intros Hspawned. by rewrite bool_decide_eq_true_2.
Qed.

(** *** Submissions *)

(** X13: the executor wrapper never touches the client state and submits at
    most once.  Without an executor it rejects with "no signer" and submits
    nothing; with one it submits the call once, returns the transaction
    when the submission resolves, and when it is rejected logs the
    extracted contract error once and rethrows the error it caught. *)
Theorem worldSend_outcomes o func args c r c' t :
  worldSend o func args c = (r, c', t) ->
  c' = c
  /\ (fastTxExecutor c = false -> r = Throw "no signer" /\ t = [])
  /\ (fastTxExecutor c = true ->
      submissions t = [FastTxExecute func args]
      /\ match transaction o with
         | Resolved tx => r = Return tx /\ t = [FastTxExecute func args]
         | Rejected e =>
             r = Throw e
             /\ t = [FastTxExecute func args;
                     ConsoleError (extractContractError e)]
         | NeverSettles => r = Pending /\ t = [FastTxExecute func args]
         end).
Proof.
  unfold Client.worldSend. unfold_monad.
  destruct (fastTxExecutor c); reduce.
  - destruct (transaction o); reduce; intros [= <- <- <-]; by repeat split.
  - intros [= <- <- <-]. by repeat split.
Qed.

(** Splitting a run of a verb into its cases. *)
Ltac split_run H :=
  unfold guarded, Views.submitted in H;
  repeat case_match; simplify_eq; reduce.



(** X16: [spawn] depends on its coordinates only through the cell they
    wrap to, which is also what it submits: two spawns that wrap to the
    same cell are the same run, and on a map of width [W] and height [H]
    [spawn(W, 0)] is [spawn(0, 0)]. *)
Theorem spawn_wrapping o c x y :
  (forall x' y',
     wrapPosition x y c = wrapPosition x' y' c ->
     spawn o x y c = spawn o x' y' c)
  /\ (forall r c' t,
     spawn o x y c = (r, c', t) ->
     submissions t = []
     \/ exists wx wy,
          wrapPosition x y c = (Return (wx, wy), c, [])
          /\ submissions t = [FastTxExecute "spawn" [wx; wy]])
  /\ (forall W H,
     MapConfig (replica c) !! singletonEntity c = Some (mkMapConfig W H) ->
     0 < W -> 0 < H ->
     spawn o W 0 c = spawn o 0 0 c).
Proof.
  assert (Hsame : forall x y x' y',
     wrapPosition x y c = wrapPosition x' y' c ->
     spawn o x y c = spawn o x' y' c).
  { clear x y. intros x y x' y'. rewrite !wrapPosition_run, !spawn_run.
    destruct (MapConfig (replica c) !! singletonEntity c) as [mapConfig|];
      [|done].
    intros [= Hx Hy]. cbn zeta. by rewrite Hx, Hy. }
  split; [apply Hsame|]. split.
  - intros r c' t. rewrite spawn_run, wrapPosition_run. intros Hrun.
    destruct (playerEntity c) as [p|]; [|simplify_eq; by left].
    destruct (p =? 0); [simplify_eq; by left|].
    destruct (bool_decide _); [simplify_eq; by left|].
    destruct (MapConfig (replica c) !! singletonEntity c) as [mapConfig|];
      [|simplify_eq; by left].
    cbn zeta in Hrun.
    destruct (obstructed c _ _); [simplify_eq; by left|].
    unfold guarded, Views.submitted in Hrun. cbn in Hrun.
    destruct (fastTxExecutor c); [|simplify_eq; by left].
    right. eexists _, _. split; [reflexivity|].
    destruct (transaction o); [destruct (confirmation o)| |]; by simplify_eq.
  - intros W H Hcfg HW HH. apply Hsame.
    rewrite !wrapPosition_run, Hcfg. cbn [width height].
    rewrite !rem_wrap by lia.
    by rewrite Z_mod_same_full, !Z.mod_0_l by lia.
Qed.

(** *** Calls in flight *)

Lemma overriddenValue_head {V} id (e : Z) (v : V) live values :
  overriddenValue (addOverride id (mkOverride e v) live) values e = Some v.
Proof.
  unfold overriddenValue, addOverride. cbn.
  by rewrite bool_decide_eq_true_2.
Qed.

(** X17: while a [moveTo] is suspended the player is read at the cell the
    target wraps to, the Replica Store being what it was; a [moveBy] made
    meanwhile starts from that cell. *)
Theorem moveTo_speculative_position o x y c c' t :
  moveTo o x y c = (Pending, c', t) ->
  exists p wx wy,
    playerEntity c' = Some p
    /\ wrapPosition x y c = (Return (wx, wy), c, [])
    /\ getPosition c' p = Some (mkCoord wx wy)
    /\ replica c' = replica c
    /\ forall o' deltaX deltaY,
         moveBy o' deltaX deltaY c' = moveTo o' (wx + deltaX) (wy + deltaY) c'.
Proof.
  rewrite moveTo_run, wrapPosition_run. intros Hrun.
  destruct (playerEntity c) as [p|] eqn:Hp; [|done].
  destruct (p =? 0) eqn:Hp0; [done|].
  destruct (MapConfig (replica c) !! singletonEntity c) as [mapConfig|];
    [|done].
  cbn zeta in Hrun.
  destruct (obstructed c _ _); [done|].
  destruct (bool_decide _); [done|].
  set (wx := Z.rem (x + width mapConfig) (width mapConfig)) in *.
  set (wy := Z.rem (y + height mapConfig) (height mapConfig)) in *.
  assert (Hc' : c' = with_PositionOverrides
                       (addOverride (positionId o)
                          (mkOverride p (mkCoord wx wy))) c).
  { unfold guarded, Views.submitted in Hrun. cbn in Hrun.
    destruct (fastTxExecutor c); [|done].
    destruct (transaction o); [destruct (confirmation o)| |]; by simplify_eq. }
  assert (Hpos : getPosition c' p = Some (mkCoord wx wy)).
  { subst c'. apply overriddenValue_head. }
  exists p, wx, wy. repeat split; try done; try by subst c'.
  intros o' deltaX deltaY.
  assert (Hp' : playerEntity c' = Some p) by by subst c'.
  by rewrite moveBy_run, Hp', Hp0, Hpos.
Qed.

(** X18: while a [spawn] is suspended the player reads as spawned, so a
    second [spawn] is rejected as "already spawned" with no override and no
    submission. *)
Theorem spawn_in_flight_blocks_respawn o x y c c' t :
  spawn o x y c = (Pending, c', t) ->
  forall o' x' y', spawn o' x' y' c' = (Throw "already spawned", c', []).
Proof.
  rewrite spawn_run. intros Hrun.
  destruct (playerEntity c) as [p|] eqn:Hp; [|done].
  destruct (p =? 0) eqn:Hp0; [done|].
  destruct (bool_decide _); [done|].
  destruct (MapConfig (replica c) !! singletonEntity c) as [mapConfig|];
    [|done].
  cbn zeta in Hrun.
  destruct (obstructed c _ _); [done|].
  set (position := mkOverride p _) in *.
  assert (Hc' : c' = with_PlayerOverrides
                       (addOverride (playerId o) (mkOverride p true))
                       (with_PositionOverrides
                          (addOverride (positionId o) position) c)).
  { unfold guarded, Views.submitted in Hrun. cbn in Hrun.
    destruct (fastTxExecutor c); [|done].
    destruct (transaction o); [destruct (confirmation o)| |]; by simplify_eq. }
  intros o' x' y'. rewrite spawn_run.
  assert (Hplayer : getPlayer c' p = Some true).
  { subst c'. apply overriddenValue_head. }
  assert (Hp' : playerEntity c' = Some p) by by subst c'.
  by rewrite Hp', Hp0, Hplayer, bool_decide_eq_true_2.
Qed.

(** X19: a [moveBy] of a player who has no position, overrides included,
    returns after a warning and does nothing else. *)
Theorem moveBy_unpositioned o deltaX deltaY c p :
  playerEntity c = Some p -> p <> 0 ->
  getPosition c p = None ->
  moveBy o deltaX deltaY c =
    (Return tt, c,
     [ConsoleWarn "cannot moveBy without a player position, not yet spawned?"]).
Proof.
  intros Hp Hp0 Hpos.
  by rewrite moveBy_run, Hp, Hpos, (proj2 (Z.eqb_neq _ _) Hp0).
Qed.

(** *** The result of a throw *)

(** X20: a client [throwBall] that returns has submitted one [throwBall]
    call and nothing else, and reports what the synchronised Replica Store
    shows for the monsters the encounter listed before the call: [caught]
    when one of them is owned by the player, even though the encounter is
    gone then too; otherwise [fled] when the encounter record is gone and
    [miss] when it is still there. *)
Theorem throwBall_status o c status c' t :
  throwBall o c = (Return status, c', t) ->
  exists p encounter,
    playerEntity c = Some p /\ p <> 0
    /\ Encounter (replica c) !! p = Some encounter
    /\ c' = with_replica (sync o) c
    /\ t = [FastTxExecute "throwBall" []]
    /\ (status = caught <-> hasCaught normalizeEntityID c' p encounter = true)
    /\ (status = fled <->
        hasCaught normalizeEntityID c' p encounter = false
        /\ Encounter (replica c') !! p = None)
    /\ (status = miss <->
        hasCaught normalizeEntityID c' p encounter = false
        /\ is_Some (Encounter (replica c') !! p)).
Proof.
  rewrite throwBall_cases. intros Hrun.
  destruct (playerEntity c) as [p|] eqn:Hp; [|done].
  destruct (Z.eqb_spec p 0) as [|Hp0]; [done|].
  destruct (Encounter (replica c) !! p) as [encounter|] eqn:Henc; [|done].
  exists p, encounter.
  unfold Views.submitted in Hrun.
  destruct (fastTxExecutor c); [|done].
  destruct (transaction o); [|done|done].
  destruct (confirmation o); [|done|done].
  injection Hrun as <- <- <-.
  split; [done|]. split; [done|]. split; [done|]. split; [done|].
  split; [done|].
  assert (Hleaf : forall (P Q : Prop), (P -> False) -> (Q -> False) -> P <-> Q)
    by tauto.
  destruct (hasCaught _ _ _ _).
  { split_and!; first [done | apply Hleaf; [done | by intros [? _]]]. }
  cbn [replica with_replica].
  destruct (Encounter (sync o (replica c)) !! p) eqn:Hafter.
  - rewrite bool_decide_eq_true_2 by by eexists.
    split_and!.
    + by apply Hleaf.
    + apply Hleaf; [done | by intros [_ ?]].
    + split; [|done]. intros _. split; [done | by eexists].
  - rewrite bool_decide_eq_false_2 by by intros [? ?].
    split_and!.
    + by apply Hleaf.
    + done.
    + apply Hleaf; [done | by intros [_ [? ?]]].
Qed.

(** X21: the catch test holds exactly when some monster id of the
    encounter is registered under a non-zero entity index whose owner is a
    non-empty string that normalises to the player's entity id; a monster
    at index 0 or with an empty owner never counts. *)
Theorem hasCaught_spec c p encounter :
  hasCaught normalizeEntityID c p encounter = true <->
  exists monsterId monster owner,
    monsterId ∈ monsters encounter
    /\ entityToIndex c !! monsterId = Some monster
    /\ monster <> 0
    /\ OwnedBy (replica c) !! monster = Some owner
    /\ owner <> ""
    /\ js_index (entities c) p = Some (normalizeEntityID owner).
Proof.
  unfold hasCaught. rewrite existsb_exists. split.
  - intros (monsterId & Hin & Htest). apply list_elem_of_In in Hin.
    destruct (entityToIndex c !! monsterId) as [monster|] eqn:Hidx; [|done].
    destruct (Z.eqb_spec monster 0); [done|].
    destruct (OwnedBy (replica c) !! monster) as [owner|] eqn:Hown; [|done].
    destruct (decide (owner = "")) as [->|Hne].
    { by rewrite bool_decide_eq_true_2 in Htest. }
    rewrite bool_decide_eq_false_2 in Htest by done.
    apply bool_decide_eq_true in Htest.
    by exists monsterId, monster, owner.
  - intros (monsterId & monster & owner & Hin & Hidx & Hne0 & Hown & Hne & Hid).
    exists monsterId. split; [by apply list_elem_of_In|].
    rewrite Hidx, (proj2 (Z.eqb_neq _ _) Hne0), Hown.
    rewrite bool_decide_eq_false_2 by done.
    by apply bool_decide_eq_true.
Qed.

(** *** Every verb *)

Lemma release_after_add {V} (id : string) (u : Override V) live :
  id ∉ override_ids live -> removeOverride id (addOverride id u live) = live.
Proof.
  unfold addOverride, removeOverride, override_ids. intros Hfresh.
  rewrite filter_cons_False by (cbn; intros Hne; by apply Hne).
  induction live as [|[id' u'] live IH]; [done|].
  rewrite fmap_cons, not_elem_of_cons in Hfresh. destruct Hfresh as [Hne Hfresh].
  rewrite filter_cons_True by (cbn in *; congruence).
  by rewrite IH.
Qed.

(** What holds of every run of every verb. *)
Abbreviation contained o c r c' t :=
  (same_setup c c'
   /\ (replica c' = replica c \/ replica c' = sync o (replica c))
   /\ (submissions t = [] \/ exists call, submissions t = [call])
   /\ (fastTxExecutor c = false ->
       submissions t = [] /\ replica c' = replica c /\ r <> Pending)
   /\ (positionId o ∉ override_ids (PositionOverrides c) ->
       playerId o ∉ override_ids (PlayerOverrides c) ->
       r <> Pending ->
       PositionOverrides c' = PositionOverrides c
       /\ PlayerOverrides c' = PlayerOverrides c
       /\ released t = created t)).

Ltac contained_leaf :=
  simplify_eq; unfold same_setup; reduce;
  split_and!; intros; try done; auto; try (by right; eexists);
  try (rewrite ?release_after_add by done; split_and!; done).

Lemma submitted_contained o func args c r c' t :
  submitted o func args c = (r, c', t) -> contained o c r c' t.
Proof.
  unfold Views.submitted. intros Hrun.
  destruct (fastTxExecutor c) eqn:Hfx;
    [destruct (transaction o); [destruct (confirmation o)| |]|];
    contained_leaf.
Qed.

Lemma moveTo_contained o x y c r c' t :
  moveTo o x y c = (r, c', t) -> contained o c r c' t.
Proof.
  rewrite moveTo_run. intros Hrun.
  destruct (playerEntity c) as [p|]; [|contained_leaf].
  destruct (p =? 0); [contained_leaf|].
  destruct (MapConfig (replica c) !! singletonEntity c) as [mapConfig|];
    [|contained_leaf].
  cbn zeta in Hrun.
  destruct (obstructed c _ _); [contained_leaf|].
  destruct (bool_decide _); [contained_leaf|].
  unfold guarded, Views.submitted in Hrun. cbn in Hrun.
  destruct (fastTxExecutor c) eqn:Hfx;
    [destruct (transaction o); [destruct (confirmation o)| |]|];
    contained_leaf.
Qed.

Lemma spawn_contained o x y c r c' t :
  spawn o x y c = (r, c', t) -> contained o c r c' t.
Proof.
  rewrite spawn_run. intros Hrun.
  destruct (playerEntity c) as [p|]; [|contained_leaf].
  destruct (p =? 0); [contained_leaf|].
  destruct (bool_decide _); [contained_leaf|].
  destruct (MapConfig (replica c) !! singletonEntity c) as [mapConfig|];
    [|contained_leaf].
  cbn zeta in Hrun.
  destruct (obstructed c _ _); [contained_leaf|].
  unfold guarded, Views.submitted in Hrun. cbn in Hrun.
  destruct (fastTxExecutor c) eqn:Hfx;
    [destruct (transaction o); [destruct (confirmation o)| |]|];
    contained_leaf.
Qed.

Lemma api_contained o verb c r c' t :
  api o verb c = (r, c', t) -> contained o c r c' t.
Proof.
  destruct verb as [x y|deltaX deltaY|x y| | |]; unfold Views.api.
  - apply moveTo_contained.
  - rewrite moveBy_run.
    destruct (playerEntity c) as [p|]; [|intros; contained_leaf].
    destruct (p =? 0); [intros; contained_leaf|].
    destruct (getPosition c p); [apply moveTo_contained|intros; contained_leaf].
  - apply spawn_contained.
  - rewrite throwBall_cases. unfold outcome.
    destruct (playerEntity c) as [p|]; [|intros; contained_leaf].
    destruct (p =? 0); [intros; contained_leaf|].
    destruct (Encounter (replica c) !! p); [|intros; contained_leaf].
    destruct (submitted o "throwBall" [] c) as [[r0 c0] t0] eqn:Hsub.
    apply submitted_contained in Hsub.
    destruct r0; intros [= <- <- <-]; [|done|done].
    destruct Hsub as (? & ? & ? & Hro & Hhyg).
    split_and!; try done.
    + intros Hfx. by destruct (Hro Hfx) as (? & ? & ?).
    + intros ? ? _. by apply Hhyg.
  - rewrite fleeEncounter_submits. apply submitted_contained.
  - rewrite attack_submits. apply submitted_contained.
Qed.

(** X22: no verb of the [api] changes what [setup] fixed (player,
    singleton entity, executor, entity registry); the Replica Store after a
    verb is the one before or the one the synchronisation wrote during the
    confirmation wait; and no verb submits more than one call. *)
Theorem api_keeps_setup o verb c r c' t :
  api o verb c = (r, c', t) ->
  same_setup c c'
  /\ (replica c' = replica c \/ replica c' = sync o (replica c))
  /\ (submissions t = [] \/ exists call, submissions t = [call]).
Proof.
  intros Hrun. apply api_contained in Hrun as (? & ? & ? & _). done.
Qed.

(** X23: without an executor the client is read-only: no verb submits
    anything, none is left suspended, and the Replica Store is unchanged. *)
Theorem api_read_only_without_signer o verb c r c' t :
  fastTxExecutor c = false ->
  api o verb c = (r, c', t) ->
  submissions t = [] /\ replica c' = replica c /\ r <> Pending.
Proof.
  intros Hfx Hrun. apply api_contained in Hrun as (_ & _ & _ & Hro & _).
  by apply Hro.
Qed.

(** X24: every verb of the [api], not only [moveTo] and [spawn], leaves
    the live overrides as they were once it settles, the identifiers of
    [uuid()] being fresh: [moveBy] releases what its [moveTo] created, and
    [throwBall], [fleeEncounter] and [attack] create none. *)
Theorem api_override_hygiene o verb c r c' t :
  positionId o ∉ override_ids (PositionOverrides c) ->
  playerId o ∉ override_ids (PlayerOverrides c) ->
  api o verb c = (r, c', t) ->
  r <> Pending ->
  PositionOverrides c' = PositionOverrides c
  /\ PlayerOverrides c' = PlayerOverrides c
  /\ released t = created t.
Proof.
  intros Hposition Hplayer Hrun Hsettled.
  apply api_contained in Hrun as (_ & _ & _ & _ & Hhygiene).
  by apply Hhygiene.
Qed.

(** X25: the client's [attack] and [fleeEncounter] check nothing: with an
    executor they submit their call whoever the player is and whether or
    not there is an encounter, create no override, and return exactly when
    the submission and the confirmation resolve. *)
Theorem attack_and_flee_unchecked o c :
  fastTxExecutor c = true ->
  (forall r c' t,
     attack o c = (r, c', t) ->
     submissions t = [FastTxExecute "attack" []] /\ created t = []
     /\ (r = Return tt <->
         exists tx u, transaction o = Resolved tx /\ confirmation o = Resolved u))
  /\ (forall r c' t,
     fleeEncounter o c = (r, c', t) ->
     submissions t = [FastTxExecute "flee" []] /\ created t = []
     /\ (r = Return tt <->
         exists tx u, transaction o = Resolved tx /\ confirmation o = Resolved u)).
Proof.
  intros Hfx.
  assert (Hsub : forall func r c' t,
     submitted o func [] c = (r, c', t) ->
     submissions t = [FastTxExecute func []] /\ created t = []
     /\ (r = Return tt <->
         exists tx u, transaction o = Resolved tx /\ confirmation o = Resolved u)).
  { intros func r c' t. unfold Views.submitted. rewrite Hfx.
    destruct (transaction o); [destruct (confirmation o)| |];
      intros [= <- <- <-]; (split; [done|]); (split; [done|]);
      (split; [try done; by eexists _, _ | by intros (? & ? & ? & ?)]). }
  split; intros r c' t.
  - rewrite attack_submits. apply Hsub.
  - rewrite fleeEncounter_submits. apply Hsub.
Qed.

End MoreActionProperties.

(** *** The buttons of the encounter screen *)

Section ButtonProperties.
Import Screen.

Variable extractContractError : Error -> string.
Variable normalizeEntityID : string -> string.
Variable monsterName : string.
Variable toastId : Z.

Abbreviation throwBall :=
  (Client.throwBall extractContractError normalizeEntityID).
Abbreviation fleeEncounter := (Client.fleeEncounter extractContractError).
Abbreviation onThrowClick :=
  (Screen.onThrowClick extractContractError normalizeEntityID
     monsterName toastId).
Abbreviation onRunClick :=
  (Screen.onRunClick extractContractError toastId).

(** X26: a click on Throw does to the client what [throwBall] does and
    shows a loading toast.  The toast is updated, once and to a
    non-loading one, exactly when [throwBall] returns, and to a success
    only for [caught]; when [throwBall] is rejected -- no executor, or the
    ledger rejecting the call -- nothing handles the error and the loading
    toast is all that is ever shown. *)
Theorem throw_click_feedback o c r c' t toasts :
  onThrowClick o c = (r, c', t, toasts) ->
  let loading := ToastLoading toastId "Throwing emojiball…" in
  outcome (throwBall o c) = (r, c', t)
  /\ (r = Return tt ->
      exists options,
        toasts = [loading; ToastUpdate toastId options]
        /\ isLoading options = false
        /\ (type options = toast_success <->
            (throwBall o c).1.1 = Return caught))
  /\ (r <> Return tt -> toasts = [loading])
  /\ (fastTxExecutor c = false -> toasts = [loading])
  /\ (forall e, transaction o = Rejected e -> toasts = [loading]).
Proof.
  intros Hclick loading. unfold Screen.onThrowClick in Hclick.
  assert (Hthrown : fastTxExecutor c = false
                    \/ (exists e, transaction o = Rejected e) ->
                    forall status, (throwBall o c).1.1 <> Return status).
  { intros Hwhy status. rewrite throwBall_cases.
    destruct (playerEntity c) as [p|]; [|done].
    destruct (p =? 0); [done|].
    destruct (Encounter (replica c) !! p); [|done].
    unfold Views.submitted.
    destruct Hwhy as [->|[err ->]]; [done|].
    by destruct (fastTxExecutor c). }
  destruct (throwBall o c) as [[[status|err|] c0] t0] eqn:Hrun;
    injection Hclick as <- <- <- <-; cbn [outcome fst snd] in *.
  - split; [done|]. split.
    { intros _. eexists. split; [reflexivity|].
      destruct status; cbn; repeat split; done. }
    split; [done|]. split.
    + intros Hfx. by destruct (Hthrown (or_introl Hfx) status).
    + intros e He. by destruct (Hthrown (or_intror (ex_intro _ e He)) status).
  - by repeat split.
  - by repeat split.
Qed.

(** X27: a click on Run shows a loading toast and, exactly when there is an
    executor and the [flee] call is submitted and confirmed, the "You ran
    away!" toast, whoever the player is and whether or not there was an
    encounter to run from; otherwise the loading toast is never updated. *)
Theorem run_click_feedback o c r c' t toasts :
  onRunClick o c = (r, c', t, toasts) ->
  let loading := ToastLoading toastId "Running away…" in
  let ran_away :=
    ToastUpdate toastId
      (mkToastOptions false toast_default "You ran away!" 5000 true) in
  fleeEncounter o c = (r, c', t)
  /\ (toasts = [loading; ran_away] \/ toasts = [loading])
  /\ (toasts = [loading; ran_away] <->
      fastTxExecutor c = true
      /\ (exists tx, transaction o = Resolved tx)
      /\ (exists u, confirmation o = Resolved u)).
Proof.
  intros Hclick loading ran_away.
  unfold Screen.onRunClick in Hclick. rewrite fleeEncounter_submits in *.
  unfold Views.submitted in *.
  destruct (fastTxExecutor c);
    [destruct (transaction o); [destruct (confirmation o)| |]|];
    injection Hclick as <- <- <- <-;
    (split; [done|]); (split; [by (left + right)|]);
    (split; [try done; intros _; by eauto
            | try done; by intros (? & [? ?] & [? ?])]).
Qed.

End ButtonProperties.

(** Runs of the other verbs. *)
Example throwBall_caught :
  throwBall error_text normalized oracle_catching client_engaged
  = (Return caught, with_world world_caught client_engaged,
     [FastTxExecute "throwBall" []]).
Proof. reflexivity. Qed.

Example throwBall_missed :
  throwBall error_text normalized oracle0 client_engaged
  = (Return miss, client_engaged, [FastTxExecute "throwBall" []]).
Proof. reflexivity. Qed.

Example throwBall_not_engaged :
  throwBall error_text normalized oracle0 client0
  = (Throw "no encounter", client0, []).
Proof. reflexivity. Qed.

Example moveBy_west_across_the_border :
  moveBy error_text oracle0 (-3) 0 client0
  = (Return tt, client0,
     [PositionAddOverride "position-1" (mkOverride 1 (mkCoord 2 0));
      FastTxExecute "move" [-1; 0];
      PositionRemoveOverride "position-1"]).
Proof. reflexivity. Qed.

Example moveTo_far_west :
  moveTo error_text oracle0 (-4) 0 client0
  = (Return tt, client0,
     [PositionAddOverride "position-1" (mkOverride 1 (mkCoord (-1) 0));
      FastTxExecute "move" [-4; 0];
      PositionRemoveOverride "position-1"]).
Proof. reflexivity. Qed.


Lemma wrapPosition_below_range_witness :
  exists wx wy,
    wrapPosition (-4) 0 client0 = (Return (wx, wy), client0, [])
    /\ wx = -1.
Proof.
  destruct (wrapPosition_below_range client0 (-4) 0 (mkMapConfig 3 3))
    as (wx & wy & Hrun & Hwx & _); [reflexivity | cbn; lia | cbn; lia |].
  exists wx, wy. split; [exact Hrun | exact Hwx].
Defined.

Lemma mapConfig_missing_witness :
  moveTo error_text oracle0 0 0 client_no_map
  = (Throw "mapConfig no yet loaded or initialized", client_no_map, []).
Proof.
  refine (proj1 (proj2 (mapConfig_missing error_text oracle0 client_no_map
                          0 0 1 _ _ _)));
    [reflexivity | lia | reflexivity].
Defined.

Lemma worldSend_outcomes_witness :
  (worldSend error_text oracle_rejecting "move" [1; 2] client0).2
  = [FastTxExecute "move" [1; 2]; ConsoleError "reverted"].
Proof.
  destruct (worldSend error_text oracle_rejecting "move" [1; 2] client0)
    as [[r c'] t] eqn:Hrun.
  destruct (worldSend_outcomes error_text oracle_rejecting "move" [1; 2]
              client0 r c' t Hrun) as (_ & _ & Hwith).
  destruct (Hwith eq_refl) as (_ & _ & Ht). exact Ht.
Defined.



Lemma spawn_wrapping_witness :
  spawn error_text oracle0 3 0 client_unspawned
  = spawn error_text oracle0 0 0 client_unspawned.
Proof.
  apply (proj2 (proj2 (spawn_wrapping error_text oracle0 client_unspawned 0 0))
           3 3); [reflexivity | lia | lia].
Defined.

Lemma moveTo_speculative_position_witness :
  exists c' p,
    (moveTo error_text oracle_silent 3 0 client0).1.2 = c'
    /\ getPosition c' p = Some (mkCoord 0 0)
    /\ getPosition client0 p = Some (mkCoord 2 0).
Proof.
  destruct (moveTo error_text oracle_silent 3 0 client0) as [[r c'] t] eqn:Hrun.
  assert (r = Pending) as ->
    by (vm_compute in Hrun; by injection Hrun as <- _ _).
  destruct (moveTo_speculative_position error_text oracle_silent 3 0
              client0 c' t Hrun) as (p & wx & wy & Hp & Hwrap & Hpos & _).
  assert (p = 1) as ->.
  { vm_compute in Hrun. injection Hrun as <- _. cbn in Hp. congruence. }
  assert (wx = 0 /\ wy = 0) as [-> ->].
  { vm_compute in Hwrap. by injection Hwrap as <- <-. }
  exists c', 1. split; [reflexivity|]. split; [exact Hpos | reflexivity].
Defined.

Lemma spawn_in_flight_blocks_respawn_witness :
  exists c',
    (spawn error_text oracle_silent 0 0 client_unspawned).1.2 = c'
    /\ spawn error_text oracle0 1 0 c' = (Throw "already spawned", c', []).
Proof.
  destruct (spawn error_text oracle_silent 0 0 client_unspawned)
    as [[r c'] t] eqn:Hrun.
  assert (r = Pending) as ->
    by (vm_compute in Hrun; by injection Hrun as <- _ _).
  exists c'. split; [reflexivity|].
  apply (spawn_in_flight_blocks_respawn error_text oracle_silent 0 0
           client_unspawned c' t Hrun).
Defined.

Lemma moveBy_unpositioned_witness :
  moveBy error_text oracle0 1 0 client_unspawned
  = (Return tt, client_unspawned,
     [ConsoleWarn "cannot moveBy without a player position, not yet spawned?"]).
Proof.
  apply (moveBy_unpositioned error_text oracle0 1 0 client_unspawned 1);
    [reflexivity | lia | reflexivity].
Defined.

Lemma throwBall_status_witness :
  exists p encounter,
    playerEntity client_engaged = Some p
    /\ hasCaught normalized (with_world world_caught client_engaged)
         p encounter = true.
Proof.
  destruct (throwBall_status error_text normalized oracle_catching
              client_engaged caught
              (with_world world_caught client_engaged)
              [FastTxExecute "throwBall" []] eq_refl)
    as (p & encounter & Hp & _ & _ & _ & _ & Hcaught & _).
  exists p, encounter. split; [exact Hp|]. by apply Hcaught.
Defined.

Lemma hasCaught_spec_witness :
  hasCaught normalized (with_world world_caught client_engaged) 1 encounter0
  = true.
Proof.
  apply (hasCaught_spec normalized).
  exists "0x03", 3, "0x01".
  split; [apply list_elem_of_here|].
  split; [reflexivity|]. split; [lia|]. split; [reflexivity|].
  split; [discriminate | reflexivity].
Defined.

Lemma api_keeps_setup_witness :
  same_setup client_engaged
    (api error_text normalized oracle_catching ThrowBall client_engaged).1.2.
Proof.
  destruct (api error_text normalized oracle_catching ThrowBall client_engaged)
    as [[r c'] t] eqn:Hrun.
  exact (proj1 (api_keeps_setup error_text normalized oracle_catching
                  ThrowBall client_engaged r c' t Hrun)).
Defined.

Lemma api_read_only_without_signer_witness :
  submissions
    (api error_text normalized oracle0 (MoveBy 1 0) client_no_signer).2 = [].
Proof.
  destruct (api error_text normalized oracle0 (MoveBy 1 0) client_no_signer)
    as [[r c'] t] eqn:Hrun.
  exact (proj1 (api_read_only_without_signer error_text normalized oracle0
                  (MoveBy 1 0) client_no_signer r c' t eq_refl Hrun)).
Defined.

Lemma api_override_hygiene_witness :
  PositionOverrides
    (api error_text normalized oracle_rejecting (MoveBy 1 0) client0).1.2
  = PositionOverrides client0.
Proof.
  destruct (api error_text normalized oracle_rejecting (MoveBy 1 0) client0)
    as [[r c'] t] eqn:Hrun.
  refine (proj1 (api_override_hygiene error_text normalized oracle_rejecting
                   (MoveBy 1 0) client0 r c' t
                   (not_elem_of_nil _) (not_elem_of_nil _) Hrun _)).
  vm_compute in Hrun. injection Hrun as <- _ _. discriminate.
Defined.

Lemma attack_and_flee_unchecked_witness :
  submissions (attack error_text oracle0 client_no_player).2
  = [FastTxExecute "attack" []].
Proof.
  destruct (attack error_text oracle0 client_no_player) as [[r c'] t] eqn:Hrun.
  exact (proj1 (proj1 (attack_and_flee_unchecked error_text oracle0
                         client_no_player eq_refl) r c' t Hrun)).
Defined.

Lemma throw_click_feedback_witness :
  (Screen.onThrowClick error_text normalized "Emojimon" 1
     oracle0 client_no_signer).2
  = [Screen.ToastLoading 1 "Throwing emojiball…"].
Proof.
  destruct (Screen.onThrowClick error_text normalized "Emojimon" 1
              oracle0 client_no_signer) as [[[r c'] t] toasts] eqn:Hclick.
  destruct (throw_click_feedback error_text normalized "Emojimon" 1
              oracle0 client_no_signer r c' t toasts Hclick)
    as (_ & _ & _ & Hstuck & _).
  exact (Hstuck eq_refl).
Defined.

Lemma run_click_feedback_witness :
  (Screen.onRunClick error_text 1 oracle0 client0).2
  = [Screen.ToastLoading 1 "Running away…";
     Screen.ToastUpdate 1
       (Screen.mkToastOptions false Screen.toast_default "You ran away!"
          5000 true)].
Proof.
  destruct (Screen.onRunClick error_text 1 oracle0 client0)
    as [[[r c'] t] toasts] eqn:Hclick.
  destruct (run_click_feedback error_text 1 oracle0 client0 r c' t toasts
              Hclick) as (_ & _ & Hiff).
  apply Hiff. split; [reflexivity|]. split; by eexists.
Defined.

End ClientMore.
